(** * wardenly-rs data migration tool: a shallow embedding of
    [tools/data_migrate/migrate.py]

    The development follows the layout of the Python module: the data
    models ([Account], [Group]), the two storage backends
    ([SqliteBackend], [MongoBackend]) behind the [StorageBackend]
    interface, the factory [create_backend] and the pipeline [migrate].

    Modelling conventions.
    - A Python object held in a dataclass field is a [value]; dataclasses do
      not check their annotations, so a field read from a store may hold
      any [value].  The identity field [id] is the key of both stores and
      is kept as a [string] (compared bytewise, as SQLite's BINARY
      collation and MongoDB's string order do).
    - An exception is an [exn]; a method that can raise returns a [result];
      a method that mutates [self] is a function [self -> self * result],
      so that what was done before an exception stays done.
    - [json.dumps] and [json.loads] belong to the Python library; the
      backends are stated over any [JsonCodec].  A concrete codec for the
      JSON subset used here is given in [Json], for the examples.
    - Python integers are unbounded ([Z]); the width limits of the storage
      engines are not part of the model.  Text printed by [migrate] is not
      modelled, the [len] calls made while formatting it are. *)

From Stdlib Require Import ZArith String Ascii DecimalString.
From stdpp Require Import base decidable option list sorting strings gmap.

Local Open Scope string_scope.

(** ** Python values, exceptions *)

#[local] Set Warnings "-register-all".

Inductive value : Type :=
| VNone
| VBool (b : bool)
| VInt (n : Z)
| VStr (s : string)
| VList (xs : list value)
| VDict (kvs : list (string * value)).

(** [bool(v)] *)
Definition truthy (v : value) : bool :=
  match v with
  | VNone => false
  | VBool b => b
  | VInt n => negb (n =? 0)%Z
  | VStr s => negb (String.eqb s "")
  | VList xs => match xs with [] => false | _ => true end
  | VDict kvs => match kvs with [] => false | _ => true end
  end.

(** The exception classes that the module raises or lets through. *)
Inductive exn : Type :=
| RuntimeError (msg : string)
| ValueError (msg : string)
| TypeError (msg : string)
| OperationalError (msg : string)   (* sqlite3: e.g. no such table *)
| IntegrityError (msg : string)     (* sqlite3: NOT NULL constraint failed *)
| ProgrammingError (msg : string)   (* sqlite3: parameter of unsupported type *)
| StorageClassMismatch (column : string).
  (* a str bound to an INTEGER column, or an int to a TEXT column: SQLite's
     column affinity decides what is stored; outside this model *)

Definition result (A : Type) : Type := exn + A.

(** [len(v)] *)
Definition py_len (v : value) : result nat :=
  match v with
  | VStr s => inr (String.length s)
  | VList xs => inr (length xs)
  | VDict kvs => inr (length kvs)
  | VNone => inl (TypeError "object of type 'NoneType' has no len()")
  | VBool _ => inl (TypeError "object of type 'bool' has no len()")
  | VInt _ => inl (TypeError "object of type 'int' has no len()")
  end.

(** ** Methods that mutate [self] and may raise *)

Definition M (S A : Type) : Type := S -> S * result A.

Definition ret {S A} (a : A) : M S A := fun s => (s, inr a).
Definition bind {S A B} (m : M S A) (k : A -> M S B) : M S B :=
  fun s => match m s with
           | (s', inr a) => k a s'
           | (s', inl e) => (s', inl e)
           end.
Definition lift {S A} (r : result A) : M S A := fun s => (s, r).

Notation "'let*' x := m 'in' k" := (bind m (fun x => k))
  (at level 10, x name, m at level 100, k at level 200).

(** [for x in xs: body(x)] *)
Fixpoint for_each {S A} (xs : list A) (body : A -> M S unit) : M S unit :=
  match xs with
  | [] => ret tt
  | x :: xs' => let* _ := body x in for_each xs' body
  end.

(** ** The JSON codec of the Python library *)

Class JsonCodec : Type := {
  json_dumps : value -> string;
  (** [None] stands for [json.JSONDecodeError] *)
  json_loads : string -> option value
}.

(** ** Data models *)

Module Account.
Record t : Type := mk {
  id : string;
  role_name : value;
  user_name : value;
  password : value;
  server_id : value;
  ranking : value;
  cookies : value
}.

(** [acc.cookies = v] *)
Definition set_cookies (v : value) (acc : t) : t :=
  mk (id acc) (role_name acc) (user_name acc) (password acc)
     (server_id acc) (ranking acc) v.
End Account.

Module Group.
Record t : Type := mk {
  id : string;
  name : value;
  description : value;
  account_ids : value;
  ranking : value
}.
End Group.

(** ** Storage backends *)

(** The abstract base class: the five methods that [migrate] calls.
    [connect] only opens the engine's session and is not modelled; a
    backend value carries [None] where the Python object holds no
    connection, and [close] is given with each backend. *)
Class StorageBackend (B : Type) : Type := {
  read_accounts : B -> result (list Account.t);
  read_groups : B -> result (list Group.t);
  write_accounts : list Account.t -> M B unit;
  write_groups : list Group.t -> M B unit;
  ensure_schema : M B unit
}.

(** [ORDER BY id] and [.sort("_id", 1)]: ascending on the key, strings
    compared bytewise. *)
Definition order_by {A} (key : A -> string) (rows : list A) : list A :=
  merge_sort (fun x y => String.le (key x) (key y)) rows.

(** [INSERT OR REPLACE] on a table whose primary key is [key]: the rows in
    conflict with the new row are deleted, then the new row is inserted. *)
Definition replace_into {A} (key : A -> string) (r : A) (rows : list A)
    : list A :=
  (filter (fun x => key x <> key r) rows ++ [r])%list.

(** *** SQLite: rows as the schema of [ensure_schema] types them *)

Module AccountRow.
Record t : Type := mk {
  id : string;                (* TEXT PRIMARY KEY *)
  role_name : string;         (* TEXT NOT NULL *)
  user_name : string;         (* TEXT NOT NULL *)
  password : string;          (* TEXT NOT NULL *)
  server_id : Z;              (* INTEGER NOT NULL *)
  ranking : option Z;         (* INTEGER DEFAULT 0 *)
  cookies : option string     (* TEXT *)
}.
End AccountRow.

Module GroupRow.
Record t : Type := mk {
  id : string;                (* TEXT PRIMARY KEY *)
  name : string;              (* TEXT NOT NULL *)
  description : option string;(* TEXT *)
  account_ids : string;       (* TEXT NOT NULL *)
  ranking : option Z          (* INTEGER DEFAULT 0 *)
}.
End GroupRow.

(** What the [sqlite3] module hands to the engine for a parameter. *)
Inductive sqlval : Type :=
| SqlNull
| SqlInteger (n : Z)
| SqlText (s : string).

Definition adapt (v : value) : result sqlval :=
  match v with
  | VNone => inr SqlNull
  | VBool b => inr (SqlInteger (Z.b2z b))
  | VInt n => inr (SqlInteger n)
  | VStr s => inr (SqlText s)
  | VList _ => inl (ProgrammingError "Error binding parameter: type 'list' is not supported")
  | VDict _ => inl (ProgrammingError "Error binding parameter: type 'dict' is not supported")
  end.

Definition text_column (column : string) (x : sqlval) : result (option string) :=
  match x with
  | SqlNull => inr None
  | SqlText s => inr (Some s)
  | SqlInteger _ => inl (StorageClassMismatch column)
  end.

Definition integer_column (column : string) (x : sqlval) : result (option Z) :=
  match x with
  | SqlNull => inr None
  | SqlInteger n => inr (Some n)
  | SqlText _ => inl (StorageClassMismatch column)
  end.

Definition not_null {A} (column : string) (x : option A) : result A :=
  match x with
  | Some a => inr a
  | None => inl (IntegrityError ("NOT NULL constraint failed: " ++ column))
  end.

Definition rbind {A B} (r : result A) (k : A -> result B) : result B :=
  match r with
  | inl e => inl e
  | inr a => k a
  end.

Notation "'let?' x := r 'in' k" := (rbind r (fun x => k))
  (at level 10, x name, r at level 100, k at level 200).

Module SqliteBackend.

(** A table that was never created is [None]. *)
Record database : Type := mk_database {
  accounts : option (list AccountRow.t);
  groups : option (list GroupRow.t)
}.

(** [sqlite3.Connection]: [db] is what statements on this connection see,
    [committed] what the last [commit] made durable. *)
Record connection : Type := mk_connection {
  db : database;
  committed : database
}.

Record t : Type := mk {
  path : string;
  conn : option connection
}.

(** [__init__] *)
Definition init (path : string) : t := mk path None.

(** [self.conn.commit()] *)
Definition commit : M connection unit :=
  fun c => (mk_connection (db c) (db c), inr tt).

(** [CREATE TABLE IF NOT EXISTS accounts (...)] *)
Definition create_accounts_if_not_exists : M connection unit :=
  fun c =>
    let d := db c in
    let accounts' := match accounts d with
                     | Some rows => Some rows
                     | None => Some []
                     end in
    (mk_connection (mk_database accounts' (groups d)) (committed c), inr tt).

(** [CREATE TABLE IF NOT EXISTS groups (...)] *)
Definition create_groups_if_not_exists : M connection unit :=
  fun c =>
    let d := db c in
    let groups' := match groups d with
                   | Some rows => Some rows
                   | None => Some []
                   end in
    (mk_connection (mk_database (accounts d) groups') (committed c), inr tt).

(** Runs a statement sequence on [self.conn], after the
    [if not self.conn: raise RuntimeError("Not connected")] guard. *)
Definition with_conn {A} (body : M connection A) : M t A :=
  fun self =>
    match conn self with
    | None => (self, inl (RuntimeError "Not connected"))
    | Some c => let '(c', r) := body c in (mk (path self) (Some c'), r)
    end.

Definition ensure_schema : M t unit :=
  with_conn (let* _ := create_accounts_if_not_exists in
             let* _ := create_groups_if_not_exists in
             commit).

(** The row that [INSERT ... VALUES (?, ?, ?, ?, ?, ?, ?)] builds from its
    parameters: each is adapted, then stored under its column's rules. *)
Definition account_row (id : string)
    (role_name user_name password server_id ranking : value)
    (cookies : option string) : result AccountRow.t :=
  let? p_role_name := adapt role_name in
  let? p_user_name := adapt user_name in
  let? p_password := adapt password in
  let? p_server_id := adapt server_id in
  let? p_ranking := adapt ranking in
  let? c_role_name := rbind (text_column "accounts.role_name" p_role_name)
                            (not_null "accounts.role_name") in
  let? c_user_name := rbind (text_column "accounts.user_name" p_user_name)
                            (not_null "accounts.user_name") in
  let? c_password := rbind (text_column "accounts.password" p_password)
                           (not_null "accounts.password") in
  let? c_server_id := rbind (integer_column "accounts.server_id" p_server_id)
                            (not_null "accounts.server_id") in
  let? c_ranking := integer_column "accounts.ranking" p_ranking in
  inr (AccountRow.mk id c_role_name c_user_name c_password c_server_id
                     c_ranking cookies).

Definition group_row (id : string) (name description : value)
    (account_ids : string) (ranking : value) : result GroupRow.t :=
  let? p_name := adapt name in
  let? p_description := adapt description in
  let? p_ranking := adapt ranking in
  let? c_name := rbind (text_column "groups.name" p_name)
                       (not_null "groups.name") in
  let? c_description := text_column "groups.description" p_description in
  let? c_ranking := integer_column "groups.ranking" p_ranking in
  inr (GroupRow.mk id c_name c_description account_ids c_ranking).

(** [self.conn.execute("INSERT OR REPLACE INTO accounts ...", params)]:
    the statement is prepared (the table must exist), the parameters are
    bound, the row replaces its conflicts. *)
Definition insert_or_replace_account (row : result AccountRow.t)
    : M connection unit :=
  fun c =>
    match accounts (db c) with
    | None => (c, inl (OperationalError "no such table: accounts"))
    | Some rows =>
      match row with
      | inl e => (c, inl e)
      | inr r =>
        let rows' := replace_into AccountRow.id r rows in
        (mk_connection (mk_database (Some rows') (groups (db c)))
                       (committed c), inr tt)
      end
    end.

Definition insert_or_replace_group (row : result GroupRow.t)
    : M connection unit :=
  fun c =>
    match groups (db c) with
    | None => (c, inl (OperationalError "no such table: groups"))
    | Some rows =>
      match row with
      | inl e => (c, inl e)
      | inr r =>
        let rows' := replace_into GroupRow.id r rows in
        (mk_connection (mk_database (accounts (db c)) (Some rows'))
                       (committed c), inr tt)
      end
    end.

Section codec.
Context `{JsonCodec}.

(** The body of the [for row in cursor] loop of [read_accounts]. *)
Definition account_of_row (row : AccountRow.t) : Account.t :=
  let cookies :=
    match AccountRow.cookies row with
    | Some text =>
      if negb (String.eqb text "") then
        match json_loads text with
        | Some v => v
        | None => VNone         (* except json.JSONDecodeError: pass *)
        end
      else VNone
    | None => VNone
    end in
  Account.mk (AccountRow.id row)
             (VStr (AccountRow.role_name row))
             (VStr (AccountRow.user_name row))
             (VStr (AccountRow.password row))
             (VInt (AccountRow.server_id row))
             (from_option VInt VNone (AccountRow.ranking row))
             cookies.

Definition read_accounts (self : t) : result (list Account.t) :=
  match conn self with
  | None => inl (RuntimeError "Not connected")
  | Some c =>
    match accounts (db c) with
    | None => inl (OperationalError "no such table: accounts")
    | Some rows => inr (map account_of_row (order_by AccountRow.id rows))
    end
  end.

(** The body of the [for row in cursor] loop of [read_groups]. *)
Definition group_of_row (row : GroupRow.t) : Group.t :=
  let account_ids :=
    if negb (String.eqb (GroupRow.account_ids row) "") then
      match json_loads (GroupRow.account_ids row) with
      | Some v => v
      | None => VList []        (* except json.JSONDecodeError: pass *)
      end
    else VList [] in
  Group.mk (GroupRow.id row)
           (VStr (GroupRow.name row))
           (from_option VStr VNone (GroupRow.description row))
           account_ids
           (from_option VInt VNone (GroupRow.ranking row)).

Definition read_groups (self : t) : result (list Group.t) :=
  match conn self with
  | None => inl (RuntimeError "Not connected")
  | Some c =>
    match groups (db c) with
    | None => inl (OperationalError "no such table: groups")
    | Some rows => inr (map group_of_row (order_by GroupRow.id rows))
    end
  end.

(** The row that the loop of [write_accounts] inserts for [acc]. *)
Definition row_of_account (acc : Account.t) : result AccountRow.t :=
  let cookies_json :=
    if truthy (Account.cookies acc)
    then Some (json_dumps (Account.cookies acc))
    else None in
  account_row (Account.id acc) (Account.role_name acc)
              (Account.user_name acc) (Account.password acc)
              (Account.server_id acc) (Account.ranking acc)
              cookies_json.

Definition write_accounts (accounts : list Account.t) : M t unit :=
  with_conn
    (let* _ := for_each accounts (fun acc =>
       insert_or_replace_account (row_of_account acc)) in
     commit).

(** The row that the loop of [write_groups] inserts for [grp]. *)
Definition row_of_group (grp : Group.t) : result GroupRow.t :=
  let account_ids_json := json_dumps (Group.account_ids grp) in
  group_row (Group.id grp) (Group.name grp) (Group.description grp)
            account_ids_json (Group.ranking grp).

Definition write_groups (groups : list Group.t) : M t unit :=
  with_conn
    (let* _ := for_each groups (fun grp =>
       insert_or_replace_group (row_of_group grp)) in
     commit).

#[global] Instance storage_backend : StorageBackend t := {
  read_accounts := read_accounts;
  read_groups := read_groups;
  write_accounts := write_accounts;
  write_groups := write_groups;
  ensure_schema := ensure_schema
}.
End codec.

(** [close]: a held connection is closed and forgotten; without one the
    call does nothing. *)
Definition close : M t unit :=
  fun self =>
    match conn self with
    | Some _ => (mk (path self) None, inr tt)
    | None => (self, inr tt)
    end.
End SqliteBackend.

(** *** MongoDB: documents as dictionaries *)

Module MongoBackend.

(** A stored document: its primary key and its other fields. *)
Record doc : Type := mk_doc {
  _id : string;
  fields : gmap string value
}.

(** The two collections; a collection that was never written is empty. *)
Record database : Type := mk_database {
  accounts : list doc;
  groups : list doc
}.

Record t : Type := mk {
  uri : string;
  database_name : string;
  client : option unit;
  db : option database
}.

(** [__init__] *)
Definition init (uri database : string) : t := mk uri database None None.

(** Runs collection operations on [self.db], after the
    [if not self.db: raise RuntimeError("Not connected")] guard.  The
    guard is taken as the test [self.db is None]: a database handle is
    assumed to be truthy. *)
Definition with_db {A} (body : M database A) : M t A :=
  fun self =>
    match db self with
    | None => (self, inl (RuntimeError "Not connected"))
    | Some d =>
      let '(d', r) := body d in
      (mk (uri self) (database_name self) (client self) (Some d'), r)
    end.

(** MongoDB doesn't require explicit schema creation. *)
Definition ensure_schema : M t unit := ret tt.

(** The body of the [for doc in cursor] loop of [read_accounts]. *)
Definition account_of_doc (d : doc) : Account.t :=
  Account.mk (_id d)
             (default (VStr "") (fields d !! "role_name"))
             (default (VStr "") (fields d !! "user_name"))
             (default (VStr "") (fields d !! "password"))
             (default (VInt 0) (fields d !! "server_id"))
             (default (VInt 0) (fields d !! "ranking"))
             (default VNone (fields d !! "cookies")).

Definition read_accounts (self : t) : result (list Account.t) :=
  match db self with
  | None => inl (RuntimeError "Not connected")
  | Some d => inr (map account_of_doc (order_by _id (accounts d)))
  end.

(** The body of the [for doc in cursor] loop of [read_groups]. *)
Definition group_of_doc (d : doc) : Group.t :=
  Group.mk (_id d)
           (default (VStr "") (fields d !! "name"))
           (default VNone (fields d !! "description"))
           (default (VList []) (fields d !! "account_ids"))
           (default (VInt 0) (fields d !! "ranking")).

Definition read_groups (self : t) : result (list Group.t) :=
  match db self with
  | None => inl (RuntimeError "Not connected")
  | Some d => inr (map group_of_doc (order_by _id (groups d)))
  end.

(** [collection.replace_one({"_id": i}, d, upsert=True)]: the first
    document matching the filter is replaced where it stands; when none
    matches, [d] is inserted. *)
Fixpoint replace_one (i : string) (d : doc) (docs : list doc) : list doc :=
  match docs with
  | [] => [d]
  | x :: rest =>
    if decide (_id x = i) then d :: rest else x :: replace_one i d rest
  end.

(** The document that the loop of [write_accounts] builds. *)
Definition doc_of_account (acc : Account.t) : doc :=
  let doc :=
    <["role_name" := Account.role_name acc]>
    (<["user_name" := Account.user_name acc]>
    (<["password" := Account.password acc]>
    (<["server_id" := Account.server_id acc]>
    (<["ranking" := Account.ranking acc]> (∅ : gmap string value))))) in
  let doc :=
    match Account.cookies acc with
    | VNone => doc
    | cookies => <["cookies" := cookies]> doc
    end in
  mk_doc (Account.id acc) doc.

Definition write_accounts (accounts : list Account.t) : M t unit :=
  with_db
    (for_each accounts (fun acc =>
       let doc := doc_of_account acc in
       fun d => (mk_database
                   (replace_one (Account.id acc) doc (MongoBackend.accounts d))
                   (groups d), inr tt))).

(** The document that the loop of [write_groups] builds. *)
Definition doc_of_group (grp : Group.t) : doc :=
  mk_doc (Group.id grp)
    (<["name" := Group.name grp]>
    (<["description" := Group.description grp]>
    (<["account_ids" := Group.account_ids grp]>
    (<["ranking" := Group.ranking grp]> (∅ : gmap string value))))).

Definition write_groups (groups : list Group.t) : M t unit :=
  with_db
    (for_each groups (fun grp =>
       let doc := doc_of_group grp in
       fun d => (mk_database
                   (MongoBackend.accounts d)
                   (replace_one (Group.id grp) doc (MongoBackend.groups d)),
                 inr tt))).

#[global] Instance storage_backend : StorageBackend t := {
  read_accounts := read_accounts;
  read_groups := read_groups;
  write_accounts := write_accounts;
  write_groups := write_groups;
  ensure_schema := ensure_schema
}.

(** [close]: a held client is closed, and both [client] and [db] are
    forgotten; without a client the call does nothing. *)
Definition close : M t unit :=
  fun self =>
    match client self with
    | Some _ => (mk (uri self) (database_name self) None None, inr tt)
    | None => (self, inr tt)
    end.
End MongoBackend.

(** ** Migration logic *)

(** A backend object of either class. *)
Inductive backend : Type :=
| Sqlite (b : SqliteBackend.t)
| Mongo (b : MongoBackend.t).

(** An optional string argument when it is truthy: [not x] holds for
    [None] and for the empty string. *)
Definition present (x : option string) : option string :=
  match x with
  | Some s => if String.eqb s "" then None else Some s
  | None => None
  end.

Definition create_backend (storage_type : string)
    (path uri database : option string) : result backend :=
  if String.eqb storage_type "sqlite" then
    match present path with
    | Some path => inr (Sqlite (SqliteBackend.init path))
    | None => inl (ValueError "SQLite requires --source-path or --target-path")
    end
  else if String.eqb storage_type "mongodb" then
    match present uri, present database with
    | Some uri, Some database => inr (Mongo (MongoBackend.init uri database))
    | _, _ =>
      inl (ValueError
        "MongoDB requires --source-uri/--target-uri and --source-db/--target-db")
    end
  else inl (ValueError ("Unknown storage type: " ++ storage_type)).

(** Dispatch of a method call on the class of the object. *)
Definition on_backend {A} (f : M SqliteBackend.t A) (g : M MongoBackend.t A)
    : M backend A :=
  fun b =>
    match b with
    | Sqlite s => let '(s', r) := f s in (Sqlite s', r)
    | Mongo m => let '(m', r) := g m in (Mongo m', r)
    end.

#[global] Instance backend_storage `{JsonCodec} : StorageBackend backend := {
  read_accounts b :=
    match b with
    | Sqlite s => SqliteBackend.read_accounts s
    | Mongo m => MongoBackend.read_accounts m
    end;
  read_groups b :=
    match b with
    | Sqlite s => SqliteBackend.read_groups s
    | Mongo m => MongoBackend.read_groups m
    end;
  write_accounts accounts :=
    on_backend (SqliteBackend.write_accounts accounts)
               (MongoBackend.write_accounts accounts);
  write_groups groups :=
    on_backend (SqliteBackend.write_groups groups)
               (MongoBackend.write_groups groups);
  ensure_schema := on_backend SqliteBackend.ensure_schema MongoBackend.ensure_schema
}.

Section migrate.
Context {S T : Type} `{StorageBackend S} `{StorageBackend T}.

(** The formatting of one "Account:" line: [len(acc.cookies)] is computed
    only when [acc.cookies] is truthy. *)
Definition log_account (acc : Account.t) : result unit :=
  if truthy (Account.cookies acc)
  then let? _ := py_len (Account.cookies acc) in inr tt
  else inr tt.

(** The formatting of one "Group:" line computes [len(grp.account_ids)]. *)
Definition log_group (grp : Group.t) : result unit :=
  let? _ := py_len (Group.account_ids grp) in inr tt.

(** [migrate(source, target, dry_run, skip_cookies)]; the result is the
    target as the call leaves it, and how the call ended.  The source is
    only read. *)
Definition migrate (source : S) (target : T) (dry_run skip_cookies : bool)
    : T * result unit :=
  (let* accounts := lift (read_accounts source) in
   let* groups := lift (read_groups source) in
   (* Optionally strip cookies *)
   let accounts :=
     if skip_cookies then map (Account.set_cookies VNone) accounts
     else accounts in
   (* Log details *)
   let* _ := for_each accounts (fun acc => lift (log_account acc)) in
   let* _ := for_each groups (fun grp => lift (log_group grp)) in
   if dry_run then ret tt
   else
     let* _ := ensure_schema in
     let* _ := write_accounts accounts in
     write_groups groups) target.
End migrate.

(** ** A concrete codec

    [json.dumps] with its default separators and [json.loads] for the JSON
    subset that [value] covers: [null], booleans, integers, strings with
    the two-character escapes, arrays and objects.  It instantiates
    [JsonCodec] in the examples; the general results do not depend on it. *)

Module Json.

Definition quote_char : ascii := "034"%char.
Definition backslash : ascii := "092"%char.

Definition escape_char (c : ascii) : string :=
  if Ascii.eqb c quote_char then String backslash (String quote_char "")
  else if Ascii.eqb c backslash then String backslash (String backslash "")
  else if Ascii.eqb c "010"%char then String backslash "n"
  else if Ascii.eqb c "013"%char then String backslash "r"
  else if Ascii.eqb c "009"%char then String backslash "t"
  else String c "".

Fixpoint escape (s : string) : string :=
  match s with
  | EmptyString => ""
  | String c s' => escape_char c ++ escape s'
  end.

Definition quoted (s : string) : string :=
  String quote_char (escape s ++ String quote_char "").

Definition string_of_Z (n : Z) : string :=
  NilZero.string_of_int (Z.to_int n).

Fixpoint dumps (v : value) : string :=
  match v with
  | VNone => "null"
  | VBool true => "true"
  | VBool false => "false"
  | VInt n => string_of_Z n
  | VStr s => quoted s
  | VList xs =>
    "[" ++ (fix items (xs : list value) : string :=
              match xs with
              | [] => ""
              | x :: xs' =>
                dumps x ++ match xs' with
                           | [] => ""
                           | _ => ", " ++ items xs'
                           end
              end) xs ++ "]"
  | VDict kvs =>
    "{" ++ (fix members (kvs : list (string * value)) : string :=
              match kvs with
              | [] => ""
              | (k, x) :: kvs' =>
                quoted k ++ ": " ++ dumps x ++ match kvs' with
                                               | [] => ""
                                               | _ => ", " ++ members kvs'
                                               end
              end) kvs ++ "}"
  end.

Definition is_ws (c : ascii) : bool :=
  Ascii.eqb c " "%char || Ascii.eqb c "009"%char
  || Ascii.eqb c "010"%char || Ascii.eqb c "013"%char.

Fixpoint skip_ws (s : string) : string :=
  match s with
  | String c s' => if is_ws c then skip_ws s' else s
  | EmptyString => s
  end.

Definition digit (c : ascii) : option Z :=
  let n := Z.of_N (N_of_ascii c) in
  if (48 <=? n)%Z && (n <=? 57)%Z then Some (n - 48)%Z else None.

(** The digits at the head of [s], read after the value [acc]. *)
Fixpoint digits (acc : Z) (s : string) : Z * string :=
  match s with
  | String c s' =>
    match digit c with
    | Some d => digits (10 * acc + d)%Z s'
    | None => (acc, s)
    end
  | EmptyString => (acc, s)
  end.

(** [0] or a digit sequence without a leading zero *)
Definition natural (s : string) : option (Z * string) :=
  match s with
  | String c s' =>
    match digit c with
    | Some 0%Z => Some (0%Z, s')
    | Some d => Some (digits d s')
    | None => None
    end
  | EmptyString => None
  end.

(** The text of a string literal after its opening quote. *)
Fixpoint string_body (s : string) : option (string * string) :=
  match s with
  | EmptyString => None
  | String c s' =>
    if Ascii.eqb c quote_char then Some ("", s')
    else if Ascii.eqb c backslash then
      match s' with
      | String e s'' =>
        let unescaped :=
          if Ascii.eqb e quote_char then Some quote_char
          else if Ascii.eqb e backslash then Some backslash
          else if Ascii.eqb e "/"%char then Some "/"%char
          else if Ascii.eqb e "n"%char then Some "010"%char
          else if Ascii.eqb e "r"%char then Some "013"%char
          else if Ascii.eqb e "t"%char then Some "009"%char
          else None in
        match unescaped, string_body s'' with
        | Some u, Some (text, rest) => Some (String u text, rest)
        | _, _ => None
        end
      | EmptyString => None
      end
    else if (Z.of_N (N_of_ascii c) <? 32)%Z then None
    else
      match string_body s' with
      | Some (text, rest) => Some (String c text, rest)
      | None => None
      end
  end.

Section elements.
Context (element : string -> option (value * string)).

(** [v, v, ... ]] after the opening bracket of a non-empty array *)
Fixpoint elements (fuel : nat) (s : string) : option (list value * string) :=
  match fuel with
  | O => None
  | S fuel' =>
    match element s with
    | None => None
    | Some (v, rest) =>
      match skip_ws rest with
      | String "," rest' =>
        match elements fuel' rest' with
        | Some (vs, rest'') => Some (v :: vs, rest'')
        | None => None
        end
      | String "]" rest' => Some ([v], rest')
      | _ => None
      end
    end
  end.

(** ["k": v, ... }] after the opening brace of a non-empty object *)
Fixpoint members (fuel : nat) (s : string)
    : option (list (string * value) * string) :=
  match fuel with
  | O => None
  | S fuel' =>
    match skip_ws s with
    | String q s1 =>
      if Ascii.eqb q quote_char then
        match string_body s1 with
        | Some (k, s2) =>
          match skip_ws s2 with
          | String ":" s3 =>
            match element s3 with
            | Some (v, rest) =>
              match skip_ws rest with
              | String "," rest' =>
                match members fuel' rest' with
                | Some (kvs, rest'') => Some ((k, v) :: kvs, rest'')
                | None => None
                end
              | String "}" rest' => Some ([(k, v)], rest')
              | _ => None
              end
            | None => None
            end
          | _ => None
          end
        | None => None
        end
      else None
    | EmptyString => None
    end
  end.
End elements.

Definition strip_prefix (p s : string) : option string :=
  if String.prefix p s
  then Some (String.substring (String.length p)
                              (String.length s - String.length p) s)
  else None.

Fixpoint parse (fuel : nat) (s : string) : option (value * string) :=
  match fuel with
  | O => None
  | S fuel' =>
    match skip_ws s with
    | EmptyString => None
    | String c rest as s0 =>
      if Ascii.eqb c "["%char then
        match skip_ws rest with
        | String "]" rest' => Some (VList [], rest')
        | _ =>
          match elements (parse fuel') fuel' rest with
          | Some (vs, rest') => Some (VList vs, rest')
          | None => None
          end
        end
      else if Ascii.eqb c "{"%char then
        match skip_ws rest with
        | String "}" rest' => Some (VDict [], rest')
        | _ =>
          match members (parse fuel') fuel' rest with
          | Some (kvs, rest') => Some (VDict kvs, rest')
          | None => None
          end
        end
      else if Ascii.eqb c quote_char then
        match string_body rest with
        | Some (text, rest') => Some (VStr text, rest')
        | None => None
        end
      else if Ascii.eqb c "-"%char then
        match natural rest with
        | Some (n, rest') => Some (VInt (- n), rest')
        | None => None
        end
      else
        match natural s0 with
        | Some (n, rest') => Some (VInt n, rest')
        | None =>
          match strip_prefix "null" s0 with
          | Some rest' => Some (VNone, rest')
          | None =>
            match strip_prefix "true" s0 with
            | Some rest' => Some (VBool true, rest')
            | None =>
              match strip_prefix "false" s0 with
              | Some rest' => Some (VBool false, rest')
              | None => None
              end
            end
          end
        end
    end
  end.

Definition loads (s : string) : option value :=
  match parse (S (String.length s)) s with
  | Some (v, rest) =>
    match skip_ws rest with
    | EmptyString => Some v
    | _ => None
    end
  | None => None
  end.

#[global] Instance codec : JsonCodec := {|
  json_dumps := dumps;
  json_loads := loads
|}.
End Json.

(** ** Vocabulary of the statements *)

(** Ascending order of identifiers. *)
Definition ascending {A} (key : A -> string) (xs : list A) : Prop :=
  StronglySorted (fun x y => String.le (key x) (key y)) xs.

Definition is_str (v : value) : bool :=
  match v with VStr _ => true | _ => false end.
Definition is_int (v : value) : bool :=
  match v with VInt _ => true | _ => false end.
Definition is_none (v : value) : bool :=
  match v with VNone => true | _ => false end.

(** The scalar fields of an [Account] hold what the dataclass annotates:
    [role_name], [user_name], [password]: [str]; [server_id], [ranking]:
    [int]. *)
Definition account_typed (a : Account.t) : bool :=
  is_str (Account.role_name a) && is_str (Account.user_name a)
  && is_str (Account.password a) && is_int (Account.server_id a)
  && is_int (Account.ranking a).

(** [name: str], [description: str | None], [ranking: int]. *)
Definition group_typed (g : Group.t) : bool :=
  is_str (Group.name g)
  && (is_str (Group.description g) || is_none (Group.description g))
  && is_int (Group.ranking g).

(** The SQLite backend holds a connection and both tables exist. *)
Definition sqlite_ready (s : SqliteBackend.t) : bool :=
  match SqliteBackend.conn s with
  | Some c =>
    match SqliteBackend.accounts (SqliteBackend.db c),
          SqliteBackend.groups (SqliteBackend.db c) with
    | Some _, Some _ => true
    | _, _ => false
    end
  | None => false
  end.

(** The rows that statements on the backend's connection see. *)
Definition sqlite_accounts (s : SqliteBackend.t) : list AccountRow.t :=
  match SqliteBackend.conn s with
  | Some c => default [] (SqliteBackend.accounts (SqliteBackend.db c))
  | None => []
  end.

Definition sqlite_groups (s : SqliteBackend.t) : list GroupRow.t :=
  match SqliteBackend.conn s with
  | Some c => default [] (SqliteBackend.groups (SqliteBackend.db c))
  | None => []
  end.

Definition mongo_connected (m : MongoBackend.t) : bool :=
  match MongoBackend.db m with Some _ => true | None => false end.

Definition mongo_accounts (m : MongoBackend.t) : list MongoBackend.doc :=
  match MongoBackend.db m with
  | Some d => MongoBackend.accounts d
  | None => []
  end.

Definition mongo_groups (m : MongoBackend.t) : list MongoBackend.doc :=
  match MongoBackend.db m with
  | Some d => MongoBackend.groups d
  | None => []
  end.

(** What the last [commit] on the backend's connection made durable. *)
Definition sqlite_durable (s : SqliteBackend.t) : option SqliteBackend.database :=
  match SqliteBackend.conn s with
  | Some c => Some (SqliteBackend.committed c)
  | None => None
  end.

(** What statements on the backend's connection see. *)
Definition sqlite_view (s : SqliteBackend.t) : option SqliteBackend.database :=
  match SqliteBackend.conn s with
  | Some c => Some (SqliteBackend.db c)
  | None => None
  end.

(** [cookies] as the relational backend keeps it: a falsy value is stored
    as NULL and read as [None]. *)
Definition stored_cookies (a : Account.t) : Account.t :=
  if truthy (Account.cookies a) then a else Account.set_cookies VNone a.

(** A backend on which the read and write methods get past their guards. *)
Definition ready (b : backend) : bool :=
  match b with
  | Sqlite s => sqlite_ready s
  | Mongo m => mongo_connected m
  end.

(** The records of a table or collection that carry the identifier [i]. *)
Definition with_id {A} (key : A -> string) (i : string) (rows : list A)
    : list A :=
  filter (fun x => key x = i) rows.

(** The row [r] holds the field values of the account [a]. *)
Definition row_holds_account `{JsonCodec} (r : AccountRow.t) (a : Account.t)
    : Prop :=
  AccountRow.id r = Account.id a
  /\ VStr (AccountRow.role_name r) = Account.role_name a
  /\ VStr (AccountRow.user_name r) = Account.user_name a
  /\ VStr (AccountRow.password r) = Account.password a
  /\ VInt (AccountRow.server_id r) = Account.server_id a
  /\ from_option VInt VNone (AccountRow.ranking r) = Account.ranking a
  /\ AccountRow.cookies r =
     (if truthy (Account.cookies a)
      then Some (json_dumps (Account.cookies a)) else None).

(** The row [r] holds the field values of the group [g]. *)
Definition row_holds_group `{JsonCodec} (r : GroupRow.t) (g : Group.t)
    : Prop :=
  GroupRow.id r = Group.id g
  /\ VStr (GroupRow.name r) = Group.name g
  /\ from_option VStr VNone (GroupRow.description r) = Group.description g
  /\ GroupRow.account_ids r = json_dumps (Group.account_ids g)
  /\ from_option VInt VNone (GroupRow.ranking r) = Group.ranking g.

(** [b] is the last record of [batch] that carries its identifier. *)
Definition last_of {A} (key : A -> string) (b : A) (batch : list A) : Prop :=
  exists l l3,
    batch = (l ++ b :: l3)%list /\ Forall (fun x => key x <> key b) l3.

(** [batch] contains [a] and, later, [b] with the same identifier, and no
    record with that identifier after [b]. *)
Definition later_of {A} (key : A -> string) (a b : A) (batch : list A)
    : Prop :=
  exists l1 l2 l3,
    batch = (l1 ++ a :: l2 ++ b :: l3)%list /\ key a = key b
    /\ Forall (fun x => key x <> key b) l3.

(** [len(v)] does not raise. *)
Definition sized (v : value) : bool :=
  match py_len v with inr _ => true | inl _ => false end.

(** The formatting of the summary lines does not raise. *)
Definition summary_ok (accounts : list Account.t) (groups : list Group.t)
    : bool :=
  forallb (fun a => negb (truthy (Account.cookies a))
                    || sized (Account.cookies a)) accounts
  && forallb (fun g => sized (Group.account_ids g)) groups.

(** A target that keeps the list of the method calls it receives, each
    with its argument. *)
Module Recorder.
Inductive call : Type :=
| EnsureSchema
| WriteAccounts (accounts : list Account.t)
| WriteGroups (groups : list Group.t).

Definition t : Type := list call.

Definition record (c : call) : M t unit := fun log => ((log ++ [c])%list, inr tt).

#[global] Instance storage_backend : StorageBackend t := {
  read_accounts _ := inr [];
  read_groups _ := inr [];
  write_accounts accounts := record (WriteAccounts accounts);
  write_groups groups := record (WriteGroups groups);
  ensure_schema := record EnsureSchema
}.
End Recorder.

(** ** Sample data: the scenario of the migration of one account and one
    group, and a few stores around it *)

Module Scenario.
Definition cookie : value := VDict [("name", VStr "sid"); ("value", VStr "x")].

Definition a1 : Account.t :=
  Account.mk "a1" (VStr "admin") (VStr "u") (VStr "p") (VInt 1) (VInt 0)
             (VList [cookie]).

(** [a1] again, renamed, and without cookies *)
Definition a1' : Account.t :=
  Account.mk "a1" (VStr "root") (VStr "u") (VStr "p") (VInt 1) (VInt 7) VNone.

(** an account whose cookies are the empty list *)
Definition a0 : Account.t :=
  Account.mk "a0" (VStr "guest") (VStr "v") (VStr "q") (VInt 2) (VInt 0)
             (VList []).

Definition g1 : Group.t :=
  Group.mk "g1" (VStr "G") VNone (VList [VStr "a1"]) (VInt 0).

Definition g1' : Group.t :=
  Group.mk "g1" (VStr "H") (VStr "second") (VList []) (VInt 3).

Definition row_a1 : AccountRow.t :=
  AccountRow.mk "a1" "admin" "u" "p" 1 (Some 0%Z)
                (Some (Json.dumps (VList [cookie]))).

Definition row_b2 : AccountRow.t :=
  AccountRow.mk "b2" "user" "w" "r" 1 None (Some "{not json").

Definition row_g1 : GroupRow.t :=
  GroupRow.mk "g1" "G" None (Json.dumps (VList [VStr "a1"])) (Some 0%Z).

Definition row_h2 : GroupRow.t :=
  GroupRow.mk "h2" "H" (Some "broken") "[oops" None.

Definition sqlite_with (accounts : list AccountRow.t)
    (groups : list GroupRow.t) : SqliteBackend.t :=
  let d := SqliteBackend.mk_database (Some accounts) (Some groups) in
  SqliteBackend.mk "/data/wardenly.db" (Some (SqliteBackend.mk_connection d d)).

(** a connected SQLite backend after [ensure_schema] on a new file *)
Definition sqlite_empty : SqliteBackend.t := sqlite_with [] [].

(** rows in insertion order, not in key order *)
Definition sqlite_source : SqliteBackend.t :=
  sqlite_with [row_b2; row_a1] [row_h2; row_g1].

Definition mongo_with (accounts groups : list MongoBackend.doc)
    : MongoBackend.t :=
  MongoBackend.mk "mongodb://localhost:27017" "wardenly" (Some tt)
                  (Some (MongoBackend.mk_database accounts groups)).

Definition mongo_empty : MongoBackend.t := mongo_with [] [].

(** a group document that only has its key *)
Definition bare_group : MongoBackend.doc := MongoBackend.mk_doc "g9" ∅.

(** an account document whose ranking is an explicit null *)
Definition null_ranking : MongoBackend.doc :=
  MongoBackend.mk_doc "a9" (<["ranking" := VNone]> ∅).
End Scenario.

(** ** The order of reads *)

Section order_by.
Context {A : Type} (key : A -> string).

#[local] Instance key_le_trans :
  Transitive (fun x y : A => String.le (key x) (key y)).
Proof. intros x y z Hxy Hyz. by etrans. Qed.

#[local] Instance key_le_total :
  Total (fun x y : A => String.le (key x) (key y)).
Proof. intros x y. apply (total String.le). Qed.

Lemma order_by_ascending (rows : list A) : ascending key (order_by key rows).
Proof. apply StronglySorted_merge_sort; apply _. Qed.

Lemma order_by_perm (rows : list A) : order_by key rows ≡ₚ rows.
Proof. apply merge_sort_Permutation. Qed.

Lemma ascending_map {B} (f : A -> B) (key' : B -> string) (xs : list A) :
  (forall x, key' (f x) = key x) ->
  ascending key xs -> ascending key' (map f xs).
Proof.
  intros Hkey. unfold ascending. induction 1 as [|x xs Hs IH Hall]; simpl.
  - constructor.
  - constructor; [exact IH|].
    apply Forall_map. eapply Forall_impl; [exact Hall|].
    intros y Hy. simpl. by rewrite !Hkey.
Qed.
End order_by.



(** The rows of [Scenario.sqlite_source] are stored out of order and read
    in order. *)
Example read_order_scenario :
  rbind (read_accounts (Sqlite Scenario.sqlite_source))
        (fun accounts => inr (map Account.id accounts))
  = inr ["a1"; "b2"].
Proof. vm_compute. reflexivity. Qed.

Example json_scenario :
  Json.loads (Json.dumps (VList [VDict [("name", VStr "sid"); ("value", VStr "x")]]))
  = Some (VList [VDict [("name", VStr "sid"); ("value", VStr "x")]]).
Proof. vm_compute. reflexivity. Qed.

(** ** Upserts *)

Lemma elem_of_map {A B} (f : A -> B) (l : list A) (x : A) :
  x ∈ l -> f x ∈ map f l.
Proof. rewrite !list_elem_of_In. apply in_map. Qed.

Lemma with_id_nil_iff {A} (key : A -> string) (i : string) (rows : list A) :
  with_id key i rows = [] <-> i ∉ map key rows.
Proof.
  unfold with_id. induction rows as [|x rows IH]; simpl.
  - split; [intros _; apply not_elem_of_nil|done].
  - rewrite filter_cons, not_elem_of_cons. destruct (decide (key x = i)).
    + split; [done|]. intros [? _]. congruence.
    + rewrite IH. split; [intros ?; split; congruence|tauto].
Qed.

Lemma with_id_replace_into {A} (key : A -> string) (r : A) (rows : list A)
    (i : string) :
  with_id key i (replace_into key r rows)
  = if decide (key r = i) then [r] else with_id key i rows.
Proof.
  unfold with_id, replace_into. rewrite filter_app.
  rewrite (filter_cons _ r []), filter_nil.
  destruct (decide (key r = i)) as [Hi|Hi].
  - replace (filter (fun x => key x = i) (filter (fun x => key x <> key r) rows))
      with (@nil A); [done|].
    induction rows as [|x rows IH]; [done|].
    rewrite (filter_cons _ x rows). destruct (decide (key x <> key r)).
    + rewrite filter_cons. destruct (decide (key x = i)); [congruence|done].
    + done.
  - rewrite app_nil_r. induction rows as [|x rows IH]; [done|].
    rewrite (filter_cons _ x rows). destruct (decide (key x <> key r)) as [Hne|Heq].
    + rewrite !filter_cons. destruct (decide (key x = i)); by rewrite IH.
    + rewrite filter_cons. destruct (decide (key x = i)); [|done].
      exfalso. apply Heq. congruence.
Qed.

Section replace_one.
Import MongoBackend.

Lemma replace_one_ids (d : doc) (docs : list doc) (j : string) :
  j ∈ map _id (replace_one (_id d) d docs)
  <-> j = _id d \/ j ∈ map _id docs.
Proof.
  induction docs as [|x docs IH]; simpl.
  - rewrite list_elem_of_singleton. split; [auto|].
    intros [?|?%elem_of_nil]; done.
  - destruct (decide (_id x = _id d)) as [Hx|Hx]; simpl.
    + rewrite !elem_of_cons, Hx. tauto.
    + rewrite !elem_of_cons, IH. tauto.
Qed.

Lemma replace_one_NoDup (d : doc) (docs : list doc) :
  NoDup (map _id docs) -> NoDup (map _id (replace_one (_id d) d docs)).
Proof.
  induction docs as [|x docs IH]; simpl; intros Hnd.
  - apply NoDup_singleton.
  - apply NoDup_cons in Hnd as [Hx Hnd].
    destruct (decide (_id x = _id d)) as [Hxd|Hxd]; simpl.
    + apply NoDup_cons. by rewrite <- Hxd.
    + apply NoDup_cons. split; [|by apply IH].
      rewrite replace_one_ids. intros [?|?]; congruence.
Qed.

Lemma with_id_replace_one (d : doc) (docs : list doc) (j : string) :
  NoDup (map _id docs) ->
  with_id _id j (replace_one (_id d) d docs)
  = if decide (_id d = j) then [d] else with_id _id j docs.
Proof.
  unfold with_id. induction docs as [|x docs IH]; simpl; intros Hnd.
  - rewrite filter_cons, filter_nil. by destruct (decide (_id d = j)).
  - apply NoDup_cons in Hnd as [Hx Hnd].
    destruct (decide (_id x = _id d)) as [Hxd|Hxd].
    + rewrite !filter_cons.
      destruct (decide (_id d = j)) as [Hj|Hj].
      * f_equal. apply (with_id_nil_iff _id). congruence.
      * destruct (decide (_id x = j)); [congruence|done].
    + rewrite !filter_cons, (IH Hnd).
      destruct (decide (_id x = j)), (decide (_id d = j)); congruence.
Qed.
End replace_one.

(** A sequence of upserts leaves, for each identifier, the last record
    written under it, or what was there when none was written. *)
Section upserts.
Context {R : Type} (key : R -> string) (ups : R -> list R -> list R)
  (Inv : list R -> Prop).
Hypothesis ups_with_id : forall r rows i,
  Inv rows ->
  with_id key i (ups r rows) = if decide (key r = i) then [r] else with_id key i rows.
Hypothesis ups_inv : forall r rows, Inv rows -> Inv (ups r rows).

Lemma upserts_inv (rs rows : list R) :
  Inv rows -> Inv (foldl (fun t r => ups r t) rows rs).
Proof. revert rows. induction rs; simpl; auto. Qed.

Lemma upserts_last_of (rs rows : list R) (b : R) :
  Inv rows -> last_of key b rs ->
  with_id key (key b) (foldl (fun t r => ups r t) rows rs) = [b].
Proof.
  intros Hinv (l & l3 & -> & Hl3).
  rewrite foldl_app. simpl.
  assert (Hb : Inv (ups b (foldl (fun t r => ups r t) rows l)))
    by auto using upserts_inv.
  assert (H0 : with_id key (key b)
                 (ups b (foldl (fun t r => ups r t) rows l)) = [b]).
  { rewrite ups_with_id by auto using upserts_inv. by rewrite decide_True. }
  revert Hb H0. generalize (ups b (foldl (fun t r => ups r t) rows l)).
  induction Hl3 as [|x l3 Hx Hl3 IH]; simpl; intros t Ht H0; [done|].
  apply IH; [by auto|].
  rewrite ups_with_id by done. by rewrite decide_False.
Qed.
End upserts.

Lemma last_of_Forall2 {A R} (keyA : A -> string) (keyR : R -> string)
    (Q : A -> R -> Prop) (batch : list A) (rs : list R) (b : A) :
  (forall a r, Q a r -> keyR r = keyA a) ->
  Forall2 Q batch rs -> last_of keyA b batch ->
  exists rb, Q b rb /\ last_of keyR rb rs.
Proof.
  intros Hkey HQ (l & l3 & -> & Hl3).
  apply Forall2_app_inv_l in HQ as (rl & rest & _ & HQ & ->).
  apply Forall2_cons_inv_l in HQ as (rb & r3 & Hb & H3 & ->).
  exists rb. split; [done|]. exists rl, r3. split; [done|].
  rewrite (Hkey _ _ Hb). clear Hb. induction H3 as [|a r l3 r3 Har H3 IH].
  - constructor.
  - apply Forall_cons in Hl3 as [Ha Hl3]. constructor; [|by apply IH].
    by rewrite (Hkey _ _ Har).
Qed.

Lemma later_of_last_of {A} (key : A -> string) (a b : A) (batch : list A) :
  later_of key a b batch -> last_of key b batch.
Proof.
  intros (l1 & l2 & l3 & -> & _ & Hl3).
  exists (l1 ++ a :: l2)%list, l3. split; [|done].
  by rewrite <- app_assoc.
Qed.

(** *** The write loops of the SQLite backend *)

Section sqlite_writes.
Context `{JsonCodec}.
Import SqliteBackend.

Lemma row_of_account_typed (a : Account.t) :
  account_typed a = true ->
  exists r, row_of_account a = inr r /\ row_holds_account r a.
Proof.
  destruct a as [i rn un pw sid rk ck]. unfold account_typed. simpl.
  destruct rn; try discriminate. destruct un; try discriminate.
  destruct pw; try discriminate. destruct sid; try discriminate.
  destruct rk; try discriminate. intros _.
  eexists. split; [reflexivity|]. by repeat split.
Qed.

Lemma row_of_group_typed (g : Group.t) :
  group_typed g = true ->
  exists r, row_of_group g = inr r /\ row_holds_group r g.
Proof.
  destruct g as [i nm ds ids rk]. unfold group_typed. simpl.
  destruct nm; try discriminate. destruct rk;
    try (rewrite andb_false_r; discriminate).
  destruct ds; try discriminate; intros _;
    (eexists; split; [reflexivity|]; by repeat split).
Qed.

Lemma insert_accounts_run (batch : list Account.t) :
  forall c rows,
  accounts (db c) = Some rows ->
  forallb account_typed batch = true ->
  exists rs,
    Forall2 (fun a r => row_of_account a = inr r /\ row_holds_account r a)
            batch rs
    /\ for_each batch
         (fun acc => insert_or_replace_account (row_of_account acc)) c
       = (mk_connection
            (mk_database
               (Some (foldl (fun t r => replace_into AccountRow.id r t) rows rs))
               (groups (db c)))
            (committed c), inr tt).
Proof.
  induction batch as [|a batch IH]; simpl; intros c rows Hrows Hty.
  - exists []. split; [constructor|].
    destruct c as [[ta tg] cm]. simpl in *. by subst.
  - apply andb_true_iff in Hty as [Ha Hty].
    destruct (row_of_account_typed a Ha) as (r & Hr & Hh).
    unfold bind at 1. unfold insert_or_replace_account at 1.
    rewrite Hrows, Hr.
    edestruct (IH (mk_connection
                     (mk_database (Some (replace_into AccountRow.id r rows))
                                  (groups (db c))) (committed c))
                  (replace_into AccountRow.id r rows)) as (rs & Hrs & Hrun);
      [done|done|].
    exists (r :: rs). split; [by constructor|]. exact Hrun.
Qed.

Lemma insert_groups_run (batch : list Group.t) :
  forall c rows,
  groups (db c) = Some rows ->
  forallb group_typed batch = true ->
  exists rs,
    Forall2 (fun g r => row_of_group g = inr r /\ row_holds_group r g)
            batch rs
    /\ for_each batch
         (fun grp => insert_or_replace_group (row_of_group grp)) c
       = (mk_connection
            (mk_database
               (accounts (db c))
               (Some (foldl (fun t r => replace_into GroupRow.id r t) rows rs)))
            (committed c), inr tt).
Proof.
  induction batch as [|g batch IH]; simpl; intros c rows Hrows Hty.
  - exists []. split; [constructor|].
    destruct c as [[ta tg] cm]. simpl in *. by subst.
  - apply andb_true_iff in Hty as [Hg Hty].
    destruct (row_of_group_typed g Hg) as (r & Hr & Hh).
    unfold bind at 1. unfold insert_or_replace_group at 1.
    rewrite Hrows, Hr.
    edestruct (IH (mk_connection
                     (mk_database (accounts (db c))
                                  (Some (replace_into GroupRow.id r rows)))
                     (committed c))
                  (replace_into GroupRow.id r rows)) as (rs & Hrs & Hrun);
      [done|done|].
    exists (r :: rs). split; [by constructor|]. exact Hrun.
Qed.

(** A batch of well-typed accounts is written without error; the table
    then holds, under the identifier of the last record [b] of the batch
    with its identifier, one row, with the field values of [b]; the
    groups table is as before, and the connection has nothing pending. *)
Lemma write_accounts_last_of (s : t) (batch : list Account.t) (b : Account.t) :
  sqlite_ready s = true ->
  forallb account_typed batch = true ->
  last_of Account.id b batch ->
  exists s' r,
    write_accounts batch s = (s', inr tt)
    /\ sqlite_ready s' = true
    /\ with_id AccountRow.id (Account.id b) (sqlite_accounts s') = [r]
    /\ row_holds_account r b
    /\ sqlite_groups s' = sqlite_groups s.
Proof.
  unfold sqlite_ready, sqlite_accounts, sqlite_groups, write_accounts, with_conn.
  destruct s as [p [c|]]; simpl; [|done].
  destruct (accounts (db c)) as [rows|] eqn:Hrows; [|done].
  destruct (groups (db c)) as [grows|] eqn:Hgrows; [|done].
  intros _ Hty Hlast.
  destruct (insert_accounts_run batch c rows Hrows Hty) as (rs & Hrs & Hrun).
  destruct (fun Hkey => last_of_Forall2 Account.id AccountRow.id _
                          batch rs b Hkey Hrs Hlast)
    as (rb & [Hrb Hhold] & Hlast').
  { intros a r [_ Hh]. apply Hh. }
  unfold bind. rewrite Hrun. simpl. rewrite Hgrows. simpl.
  do 2 eexists. split; [reflexivity|]. simpl. split; [done|].
  split; [|done].
  replace (Account.id b) with (AccountRow.id rb) by apply Hhold.
  apply (upserts_last_of AccountRow.id _ (fun _ => True)); try done.
  intros. apply with_id_replace_into.
Qed.

Lemma write_groups_last_of (s : t) (batch : list Group.t) (b : Group.t) :
  sqlite_ready s = true ->
  forallb group_typed batch = true ->
  last_of Group.id b batch ->
  exists s' r,
    write_groups batch s = (s', inr tt)
    /\ sqlite_ready s' = true
    /\ with_id GroupRow.id (Group.id b) (sqlite_groups s') = [r]
    /\ row_holds_group r b
    /\ sqlite_accounts s' = sqlite_accounts s.
Proof.
  unfold sqlite_ready, sqlite_accounts, sqlite_groups, write_groups, with_conn.
  destruct s as [p [c|]]; simpl; [|done].
  destruct (accounts (db c)) as [rows|] eqn:Hrows; [|done].
  destruct (groups (db c)) as [grows|] eqn:Hgrows; [|done].
  intros _ Hty Hlast.
  destruct (insert_groups_run batch c grows Hgrows Hty) as (rs & Hrs & Hrun).
  destruct (fun Hkey => last_of_Forall2 Group.id GroupRow.id _
                          batch rs b Hkey Hrs Hlast)
    as (rb & [Hrb Hhold] & Hlast').
  { intros a r [_ Hh]. apply Hh. }
  unfold bind. rewrite Hrun. simpl. rewrite Hrows. simpl.
  do 2 eexists. split; [reflexivity|]. simpl. split; [done|].
  split; [|done].
  replace (Group.id b) with (GroupRow.id rb) by apply Hhold.
  apply (upserts_last_of GroupRow.id _ (fun _ => True)); try done.
  intros. apply with_id_replace_into.
Qed.
End sqlite_writes.

(** *** The write loops of the MongoDB backend *)

Lemma last_of_map {A R} (keyA : A -> string) (keyR : R -> string)
    (f : A -> R) (batch : list A) (b : A) :
  (forall a, keyR (f a) = keyA a) ->
  last_of keyA b batch -> last_of keyR (f b) (map f batch).
Proof.
  intros Hkey (l & l3 & -> & Hl3).
  exists (map f l), (map f l3). split; [by rewrite map_app|].
  apply Forall_map. eapply Forall_impl; [exact Hl3|].
  intros x Hx. simpl. by rewrite !Hkey.
Qed.

Section mongo_writes.
Import MongoBackend.

Lemma replace_accounts_run (batch : list Account.t) :
  forall d,
  for_each batch
    (fun acc (d : database) =>
       (mk_database (replace_one (Account.id acc) (doc_of_account acc)
                                 (accounts d))
                    (groups d), inr tt)) d
  = (mk_database
       (foldl (fun t x => replace_one (_id x) x t) (accounts d)
              (map doc_of_account batch))
       (groups d), inr tt).
Proof.
  induction batch as [|a batch IH]; simpl; intros d.
  - by destruct d.
  - unfold bind at 1. by rewrite IH.
Qed.

Lemma replace_groups_run (batch : list Group.t) :
  forall d,
  for_each batch
    (fun grp (d : database) =>
       (mk_database (accounts d)
                    (replace_one (Group.id grp) (doc_of_group grp) (groups d)),
        inr tt)) d
  = (mk_database
       (accounts d)
       (foldl (fun t x => replace_one (_id x) x t) (groups d)
              (map doc_of_group batch)), inr tt).
Proof.
  induction batch as [|g batch IH]; simpl; intros d.
  - by destruct d.
  - unfold bind at 1. by rewrite IH.
Qed.

Lemma replace_all_last_of (ds docs : list doc) (b : doc) :
  NoDup (map _id docs) -> last_of _id b ds ->
  with_id _id (_id b) (foldl (fun t x => replace_one (_id x) x t) docs ds) = [b]
  /\ NoDup (map _id (foldl (fun t x => replace_one (_id x) x t) docs ds)).
Proof.
  intros Hnd Hlast. split.
  - apply (upserts_last_of _id (fun x t => replace_one (_id x) x t)
             (fun t => NoDup (map _id t))); try done.
    + intros. by apply with_id_replace_one.
    + intros. by apply replace_one_NoDup.
  - apply (upserts_inv (fun x t => replace_one (_id x) x t)
             (fun t => NoDup (map _id t))); [|done].
    intros. by apply replace_one_NoDup.
Qed.

(** A batch of accounts is written without error on a connected backend;
    the collection then holds, under the identifier of the last record
    [b] of the batch with its identifier, one document, the one built
    from [b]; identifiers stay unique and the groups are as before. *)
Lemma mongo_write_accounts_last_of (m : t) (batch : list Account.t)
    (b : Account.t) :
  mongo_connected m = true ->
  NoDup (map _id (mongo_accounts m)) ->
  last_of Account.id b batch ->
  exists m',
    write_accounts batch m = (m', inr tt)
    /\ mongo_connected m' = true
    /\ with_id _id (Account.id b) (mongo_accounts m') = [doc_of_account b]
    /\ NoDup (map _id (mongo_accounts m'))
    /\ mongo_groups m' = mongo_groups m.
Proof.
  unfold mongo_connected, mongo_accounts, mongo_groups, write_accounts, with_db.
  destruct m as [u n cl [d|]]; simpl; [|done].
  intros _ Hnd Hlast. rewrite replace_accounts_run.
  eexists. split; [reflexivity|]. simpl. split; [done|].
  destruct (replace_all_last_of (map doc_of_account batch) (accounts d)
              (doc_of_account b) Hnd) as [Hw Hn].
  { by apply (last_of_map Account.id). }
  done.
Qed.

Lemma mongo_write_groups_last_of (m : t) (batch : list Group.t)
    (b : Group.t) :
  mongo_connected m = true ->
  NoDup (map _id (mongo_groups m)) ->
  last_of Group.id b batch ->
  exists m',
    write_groups batch m = (m', inr tt)
    /\ mongo_connected m' = true
    /\ with_id _id (Group.id b) (mongo_groups m') = [doc_of_group b]
    /\ NoDup (map _id (mongo_groups m'))
    /\ mongo_accounts m' = mongo_accounts m.
Proof.
  unfold mongo_connected, mongo_accounts, mongo_groups, write_groups, with_db.
  destruct m as [u n cl [d|]]; simpl; [|done].
  intros _ Hnd Hlast. rewrite replace_groups_run.
  eexists. split; [reflexivity|]. simpl. split; [done|].
  destruct (replace_all_last_of (map doc_of_group batch) (groups d)
              (doc_of_group b) Hnd) as [Hw Hn].
  { by apply (last_of_map Group.id). }
  done.
Qed.
End mongo_writes.

(** *** Writes that go through *)

Lemma last_of_snoc {A} (key : A -> string) (l : list A) (x : A) :
  last_of key x (l ++ [x]).
Proof. exists l, []. split; [done|constructor]. Qed.

Lemma sqlite_write_accounts_ok `{JsonCodec} (s : SqliteBackend.t)
    (batch : list Account.t) :
  sqlite_ready s = true -> forallb account_typed batch = true ->
  exists s', SqliteBackend.write_accounts batch s = (s', inr tt)
             /\ sqlite_ready s' = true.
Proof.
  intros Hs Hty. destruct batch as [|x batch _] using rev_ind.
  - revert Hs. unfold sqlite_ready, SqliteBackend.write_accounts,
      SqliteBackend.with_conn.
    destruct (SqliteBackend.conn s) as [c|]; [|done]. simpl.
    intros Hs. by eexists.
  - destruct (write_accounts_last_of s _ x Hs Hty (last_of_snoc Account.id batch x))
      as (s' & r & Hw & Hr & _).
    by exists s'.
Qed.

Lemma sqlite_write_groups_ok `{JsonCodec} (s : SqliteBackend.t)
    (batch : list Group.t) :
  sqlite_ready s = true -> forallb group_typed batch = true ->
  exists s', SqliteBackend.write_groups batch s = (s', inr tt)
             /\ sqlite_ready s' = true.
Proof.
  intros Hs Hty. destruct batch as [|x batch _] using rev_ind.
  - revert Hs. unfold sqlite_ready, SqliteBackend.write_groups,
      SqliteBackend.with_conn.
    destruct (SqliteBackend.conn s) as [c|]; [|done]. simpl.
    intros Hs. by eexists.
  - destruct (write_groups_last_of s _ x Hs Hty (last_of_snoc Group.id batch x))
      as (s' & r & Hw & Hr & _).
    by exists s'.
Qed.

Lemma mongo_write_accounts_ok (m : MongoBackend.t) (batch : list Account.t) :
  mongo_connected m = true -> NoDup (map MongoBackend._id (mongo_accounts m)) ->
  exists m', MongoBackend.write_accounts batch m = (m', inr tt)
             /\ mongo_connected m' = true
             /\ NoDup (map MongoBackend._id (mongo_accounts m')).
Proof.
  intros Hm Hnd. destruct batch as [|x batch _] using rev_ind.
  - revert Hm Hnd. unfold mongo_connected, mongo_accounts,
      MongoBackend.write_accounts, MongoBackend.with_db.
    destruct m as [u n cl [[da dg]|]]; [|done]. simpl. intros _ Hnd.
    by eexists.
  - destruct (mongo_write_accounts_last_of m _ x Hm Hnd (last_of_snoc Account.id batch x))
      as (m' & Hw & Hc & _ & Hnd' & _).
    by exists m'.
Qed.

Lemma mongo_write_groups_ok (m : MongoBackend.t) (batch : list Group.t) :
  mongo_connected m = true -> NoDup (map MongoBackend._id (mongo_groups m)) ->
  exists m', MongoBackend.write_groups batch m = (m', inr tt)
             /\ mongo_connected m' = true
             /\ NoDup (map MongoBackend._id (mongo_groups m')).
Proof.
  intros Hm Hnd. destruct batch as [|x batch _] using rev_ind.
  - revert Hm Hnd. unfold mongo_connected, mongo_groups,
      MongoBackend.write_groups, MongoBackend.with_db.
    destruct m as [u n cl [[da dg]|]]; [|done]. simpl. intros _ Hnd.
    by eexists.
  - destruct (mongo_write_groups_last_of m _ x Hm Hnd (last_of_snoc Group.id batch x))
      as (m' & Hw & Hc & _ & Hnd' & _).
    by exists m'.
Qed.





(** The replaced document keeps nothing of the first write: no [cookies]
    field is left. *)
Example upsert_full_replace :
  exists m1 m2 d,
    MongoBackend.write_accounts [Scenario.a1] Scenario.mongo_empty = (m1, inr tt)
    /\ MongoBackend.write_accounts [Scenario.a1'] m1 = (m2, inr tt)
    /\ mongo_accounts m2 = [d]
    /\ MongoBackend.fields d !! "cookies" = None
    /\ MongoBackend.fields d !! "role_name" = Some (VStr "root").
Proof. do 3 eexists. repeat split. Qed.

(** ** Reads *)

Lemma elem_of_read {A B} (key : A -> string) (f : A -> B) (rows : list A)
    (x : A) :
  x ∈ rows -> f x ∈ map f (order_by key rows).
Proof. intros Hx. apply elem_of_map. by rewrite order_by_perm. Qed.



(** A document that only has its key is read as a group with an empty
    name. *)
Example mongo_bare_group :
  MongoBackend.read_groups (Scenario.mongo_with [] [Scenario.bare_group])
  = inr [Group.mk "g9" (VStr "") VNone (VList []) (VInt 0)].
Proof. reflexivity. Qed.



(** *** Ranking *)


(** On the document backend an explicit null is returned as it is stored:
    [doc.get("ranking", 0)] only covers the missing field. *)
Example mongo_null_ranking :
  MongoBackend.read_accounts (Scenario.mongo_with [Scenario.null_ranking] [])
  = inr [Account.mk "a9" (VStr "") (VStr "") (VStr "") (VInt 0) VNone VNone].
Proof. reflexivity. Qed.



(** ** The factory *)

(** C7. Factory eager validation: [create_backend] raises (a [ValueError],
    the configuration error of the module) for the relational kind when
    [path] is missing, and for the document kind when [uri] or [database]
    is missing, where missing is what [not x] tests: [None] or the empty
    string.  With the required parameters present it returns the backend
    of the requested kind, which holds no connection: the factory opens
    nothing. *)
Theorem create_backend_validation (path uri database : option string) :
  (path = None \/ path = Some "" ->
   create_backend "sqlite" path uri database
   = inl (ValueError "SQLite requires --source-path or --target-path"))
  /\ (uri = None \/ uri = Some "" \/ database = None \/ database = Some "" ->
   create_backend "mongodb" path uri database
   = inl (ValueError
       "MongoDB requires --source-uri/--target-uri and --source-db/--target-db"))
  /\ (forall p, path = Some p -> p <> "" ->
   create_backend "sqlite" path uri database
   = inr (Sqlite (SqliteBackend.mk p None)))
  /\ (forall u d, uri = Some u -> u <> "" -> database = Some d -> d <> "" ->
   create_backend "mongodb" path uri database
   = inr (Mongo (MongoBackend.mk u d None None))).
Proof.
  unfold create_backend. simpl. repeat split.
  - by intros [-> | ->].
  - intros [-> | [-> | [-> | ->]]]; try done;
      destruct (present uri); try done;
      unfold present; by destruct database as [[|]|].
  - intros p -> Hp. unfold present.
    by destruct (String.eqb_spec p "").
  - intros u d -> Hu -> Hd. unfold present.
    destruct (String.eqb_spec u ""); [done|].
    by destruct (String.eqb_spec d "").
Qed.

Lemma create_backend_validation_witness :
  create_backend "sqlite" None (Some "mongodb://localhost:27017") (Some "wardenly")
  = inl (ValueError "SQLite requires --source-path or --target-path")
  /\ create_backend "mongodb" (Some "/data/wardenly.db")
                    (Some "mongodb://localhost:27017") None
     = inl (ValueError
         "MongoDB requires --source-uri/--target-uri and --source-db/--target-db")
  /\ create_backend "sqlite" (Some "/data/wardenly.db") None None
     = inr (Sqlite (SqliteBackend.mk "/data/wardenly.db" None))
  /\ create_backend "mongodb" None (Some "mongodb://localhost:27017")
                    (Some "wardenly")
     = inr (Mongo (MongoBackend.mk "mongodb://localhost:27017" "wardenly"
                                   None None)).
Proof.
  split; [|split; [|split]].
  - apply (create_backend_validation None (Some "mongodb://localhost:27017")
             (Some "wardenly")).
    left. reflexivity.
  - apply (create_backend_validation (Some "/data/wardenly.db")
             (Some "mongodb://localhost:27017") None).
    right. right. left. reflexivity.
  - apply (create_backend_validation (Some "/data/wardenly.db") None None
             ).
    + reflexivity.
    + discriminate.
  - apply (create_backend_validation None (Some "mongodb://localhost:27017")
             (Some "wardenly")).
    + reflexivity.
    + discriminate.
    + reflexivity.
    + discriminate.
Defined.

(** A kind that is neither of the two is refused as well. *)
Example create_backend_unknown :
  create_backend "redis" (Some "p") (Some "u") (Some "d")
  = inl (ValueError "Unknown storage type: redis").
Proof. reflexivity. Qed.

(** ** The pipeline *)

Lemma for_each_lift {S A} (xs : list A) (f : A -> result unit) (s : S) :
  exists r, for_each xs (fun x => lift (f x)) s = (s, r)
            /\ (forallb (fun x => match f x with inr _ => true | inl _ => false end)
                        xs = true -> r = inr tt).
Proof.
  induction xs as [|x xs IH]; simpl.
  - by exists (inr tt).
  - unfold bind, lift at 1. destruct (f x) as [e|[]].
    + by exists (inl e).
    + destruct IH as (r & -> & Hr). by exists r.
Qed.

(** C5. Dry-run is a no-op on the target: whatever the source and the
    target are, and however the run ends, [migrate] with [dry_run = True]
    leaves the target as it was.  The target ranges over every
    implementation of the interface, so none of [ensure_schema],
    [write_accounts], [write_groups] is applied to it: on the recording
    target the list of calls stays as it was. *)
Theorem dry_run_noop {S T} `{StorageBackend S} `{StorageBackend T}
    (source : S) (target : T) (skip_cookies : bool) :
  fst (migrate source target true skip_cookies) = target
  /\ forall log : Recorder.t, fst (migrate source log true skip_cookies) = log.
Proof.
  assert (Hany : forall (T' : Type) (HT : StorageBackend T') (t : T'),
             fst (migrate source t true skip_cookies) = t).
  { intros T' HT t. unfold migrate, bind.
    destruct (read_accounts source) as [e|accounts]; [done|].
    destruct (read_groups source) as [e|groups]; [done|]. simpl.
    destruct (for_each_lift
                (if skip_cookies then map (Account.set_cookies VNone) accounts
                 else accounts) log_account t) as (r1 & -> & _).
    destruct r1 as [e|[]]; [done|].
    destruct (for_each_lift groups log_group t) as (r2 & -> & _).
    by destruct r2 as [e|[]]. }
  split; [apply Hany|]. intros log. apply Hany.
Qed.

(** A dry run from the sample SQLite store into the sample MongoDB store,
    which holds a document. *)
Example dry_run_scenario :
  migrate Scenario.sqlite_source
          (Scenario.mongo_with [Scenario.null_ranking] []) true false
  = (Scenario.mongo_with [Scenario.null_ranking] [], inr tt).
Proof. vm_compute. reflexivity. Qed.

Lemma last_of_exists {A} (key : A -> string) (a : A) (batch : list A) :
  a ∈ batch -> exists b, last_of key b batch /\ key b = key a /\ b ∈ batch.
Proof.
  induction batch as [|x batch IH] using rev_ind; [by intros ?%elem_of_nil|].
  intros Ha. destruct (decide (key x = key a)) as [Hx|Hx].
  - exists x. split; [apply last_of_snoc|]. split; [done|].
    apply elem_of_app. right. apply list_elem_of_here.
  - apply elem_of_app in Ha as [Ha|Ha%list_elem_of_singleton]; [|congruence].
    destruct (IH Ha) as (b & (l & l3 & -> & Hl3) & Hb & Hin).
    exists b. split; [|split; [done|]].
    + exists l, (l3 ++ [x])%list. split; [by rewrite <- app_assoc|].
      apply Forall_app. split; [done|]. constructor; [congruence|constructor].
    + apply elem_of_app. by left.
Qed.

Lemma doc_of_account_no_cookies (a : Account.t) :
  Account.cookies a = VNone ->
  MongoBackend.fields (MongoBackend.doc_of_account a) !! "cookies" = None.
Proof.
  intros Hc. unfold MongoBackend.doc_of_account. rewrite Hc. simpl.
  by rewrite !lookup_insert_ne, lookup_empty.
Qed.

Lemma mongo_write_groups_frame (m : MongoBackend.t) (batch : list Group.t) :
  mongo_connected m = true ->
  exists m', MongoBackend.write_groups batch m = (m', inr tt)
             /\ mongo_accounts m' = mongo_accounts m.
Proof.
  unfold mongo_connected, mongo_accounts, MongoBackend.write_groups,
    MongoBackend.with_db.
  destruct m as [u n cl [d|]]; simpl; [|done]. intros _.
  rewrite replace_groups_run. by eexists.
Qed.



(** The target documents of the scenario, with and without the option. *)
Example migrate_scenario :
  migrate (Scenario.sqlite_with [Scenario.row_a1] [Scenario.row_g1])
          Scenario.mongo_empty false false
  = (Scenario.mongo_with [MongoBackend.doc_of_account Scenario.a1]
                         [MongoBackend.doc_of_group Scenario.g1], inr tt)
  /\ migrate (Scenario.sqlite_with [Scenario.row_a1] [Scenario.row_g1])
             Scenario.mongo_empty false true
     = (Scenario.mongo_with
          [MongoBackend.doc_of_account (Account.set_cookies VNone Scenario.a1)]
          [MongoBackend.doc_of_group Scenario.g1], inr tt).
Proof. split; vm_compute; reflexivity. Qed.

(** ** Cookies: absent and empty *)

(** The document backend keeps whatever [cookies] holds: [None] is stored
    as no field and read as [None]; a list, empty or not, is stored and
    read as it is. *)
Lemma mongo_cookies_roundtrip (a : Account.t) :
  MongoBackend.account_of_doc (MongoBackend.doc_of_account a) = a.
Proof.
  destruct a as [i rn un pw sid rk ck].
  unfold MongoBackend.account_of_doc, MongoBackend.doc_of_account. simpl.
  destruct ck; simpl;
    repeat (rewrite lookup_insert_eq || rewrite lookup_insert_ne by done);
    by rewrite ?lookup_empty.
Qed.

(** The relational backend stores [NULL] for every falsy [cookies], and
    reads [NULL] as [None]: [None] comes back as [None], and so does the
    empty list. *)
Lemma sqlite_falsy_cookies `{JsonCodec} (a : Account.t) (r : AccountRow.t) :
  truthy (Account.cookies a) = false ->
  SqliteBackend.row_of_account a = inr r ->
  AccountRow.cookies r = None
  /\ Account.cookies (SqliteBackend.account_of_row r) = VNone.
Proof.
  intros Hf. unfold SqliteBackend.row_of_account, SqliteBackend.account_row.
  rewrite Hf. unfold rbind.
  repeat match goal with
         | |- context [match ?x with inl _ => _ | inr _ => _ end] =>
           destruct x; try discriminate
         end.
  intros [= <-]. by unfold SqliteBackend.account_of_row.
Qed.

(** C1, at the input where the code departs from it: the account
    [Scenario.a0], whose cookies are the empty list, is written to an empty
    SQLite backend and read back from the same backend with
    [cookies = None]. *)
Theorem sqlite_empty_cookies_read_as_none :
  Account.cookies Scenario.a0 = VList []
  /\ exists s',
       SqliteBackend.write_accounts [Scenario.a0] Scenario.sqlite_empty
       = (s', inr tt)
       /\ SqliteBackend.read_accounts s'
          = inr [Account.set_cookies VNone Scenario.a0].
Proof. split; [reflexivity|]. eexists. split; reflexivity. Qed.

(** The same account on the document backend comes back with its empty
    list, and an account without cookies comes back without, on both. *)
Example cookies_roundtrip_elsewhere :
  (exists m',
     MongoBackend.write_accounts [Scenario.a0] Scenario.mongo_empty = (m', inr tt)
     /\ MongoBackend.read_accounts m' = inr [Scenario.a0])
  /\ (exists m',
     MongoBackend.write_accounts [Scenario.a1'] Scenario.mongo_empty = (m', inr tt)
     /\ MongoBackend.read_accounts m' = inr [Scenario.a1'])
  /\ (exists s',
     SqliteBackend.write_accounts [Scenario.a1'] Scenario.sqlite_empty
     = (s', inr tt)
     /\ SqliteBackend.read_accounts s' = inr [Scenario.a1'])
  /\ (exists s',
     SqliteBackend.write_accounts [Scenario.a1] Scenario.sqlite_empty
     = (s', inr tt)
     /\ SqliteBackend.read_accounts s' = inr [Scenario.a1]).
Proof.
  repeat split; eexists; (split; [reflexivity|]); vm_compute; reflexivity.
Qed.

(** * Further properties of the module *)

(** ** Guards, [close], [ensure_schema] *)

(** X1. A SQLite backend that holds no connection refuses every operation:
    both reads, both writes (whatever the batch, the empty one too) and
    [ensure_schema] raise [RuntimeError("Not connected")] and leave the
    object as it is. *)
Theorem sqlite_not_connected `{JsonCodec} (s : SqliteBackend.t)
    (accounts : list Account.t) (groups : list Group.t) :
  SqliteBackend.conn s = None ->
  SqliteBackend.read_accounts s = inl (RuntimeError "Not connected")
  /\ SqliteBackend.read_groups s = inl (RuntimeError "Not connected")
  /\ SqliteBackend.write_accounts accounts s
     = (s, inl (RuntimeError "Not connected"))
  /\ SqliteBackend.write_groups groups s
     = (s, inl (RuntimeError "Not connected"))
  /\ SqliteBackend.ensure_schema s = (s, inl (RuntimeError "Not connected")).
Proof.
  intros Hc.
  unfold SqliteBackend.read_accounts, SqliteBackend.read_groups,
    SqliteBackend.write_accounts, SqliteBackend.write_groups,
    SqliteBackend.ensure_schema, SqliteBackend.with_conn.
  by rewrite Hc.
Qed.

Lemma sqlite_not_connected_witness :
  SqliteBackend.read_accounts (SqliteBackend.init "/data/wardenly.db")
  = inl (RuntimeError "Not connected")
  /\ SqliteBackend.read_groups (SqliteBackend.init "/data/wardenly.db")
     = inl (RuntimeError "Not connected")
  /\ SqliteBackend.write_accounts [Scenario.a1]
       (SqliteBackend.init "/data/wardenly.db")
     = (SqliteBackend.init "/data/wardenly.db",
        inl (RuntimeError "Not connected"))
  /\ SqliteBackend.write_groups []
       (SqliteBackend.init "/data/wardenly.db")
     = (SqliteBackend.init "/data/wardenly.db",
        inl (RuntimeError "Not connected"))
  /\ SqliteBackend.ensure_schema (SqliteBackend.init "/data/wardenly.db")
     = (SqliteBackend.init "/data/wardenly.db",
        inl (RuntimeError "Not connected")).
Proof.
  apply (sqlite_not_connected (H := Json.codec)
           (SqliteBackend.init "/data/wardenly.db") [Scenario.a1] []).
  reflexivity.
Defined.

(** X2. A MongoDB backend whose [db] is unset refuses both reads and both
    writes with [RuntimeError("Not connected")], leaving the object as it
    is; [ensure_schema] has no guard and returns normally all the same. *)
Theorem mongo_not_connected (m : MongoBackend.t)
    (accounts : list Account.t) (groups : list Group.t) :
  MongoBackend.db m = None ->
  MongoBackend.read_accounts m = inl (RuntimeError "Not connected")
  /\ MongoBackend.read_groups m = inl (RuntimeError "Not connected")
  /\ MongoBackend.write_accounts accounts m
     = (m, inl (RuntimeError "Not connected"))
  /\ MongoBackend.write_groups groups m
     = (m, inl (RuntimeError "Not connected"))
  /\ MongoBackend.ensure_schema m = (m, inr tt).
Proof.
  intros Hd.
  unfold MongoBackend.read_accounts, MongoBackend.read_groups,
    MongoBackend.write_accounts, MongoBackend.write_groups,
    MongoBackend.with_db.
  by rewrite Hd.
Qed.

Lemma mongo_not_connected_witness :
  MongoBackend.read_accounts (MongoBackend.init "mongodb://h" "wardenly")
  = inl (RuntimeError "Not connected")
  /\ MongoBackend.read_groups (MongoBackend.init "mongodb://h" "wardenly")
     = inl (RuntimeError "Not connected")
  /\ MongoBackend.write_accounts [Scenario.a1]
       (MongoBackend.init "mongodb://h" "wardenly")
     = (MongoBackend.init "mongodb://h" "wardenly",
        inl (RuntimeError "Not connected"))
  /\ MongoBackend.write_groups [Scenario.g1]
       (MongoBackend.init "mongodb://h" "wardenly")
     = (MongoBackend.init "mongodb://h" "wardenly",
        inl (RuntimeError "Not connected"))
  /\ MongoBackend.ensure_schema (MongoBackend.init "mongodb://h" "wardenly")
     = (MongoBackend.init "mongodb://h" "wardenly", inr tt).
Proof.
  apply (mongo_not_connected (MongoBackend.init "mongodb://h" "wardenly")
           [Scenario.a1] [Scenario.g1]).
  reflexivity.
Defined.

(** X3. [close] never raises, on either backend and in any state, and a
    second [close] changes nothing; after it the SQLite backend holds no
    connection, so that every operation on it is refused, and the MongoDB
    backend holds no client. *)
Theorem close_idempotent `{JsonCodec} (s : SqliteBackend.t) (m : MongoBackend.t) :
  (exists s',
     SqliteBackend.close s = (s', inr tt)
     /\ SqliteBackend.close s' = (s', inr tt)
     /\ SqliteBackend.path s' = SqliteBackend.path s
     /\ SqliteBackend.read_accounts s' = inl (RuntimeError "Not connected")
     /\ SqliteBackend.read_groups s' = inl (RuntimeError "Not connected")
     /\ (forall batch, SqliteBackend.write_accounts batch s'
                       = (s', inl (RuntimeError "Not connected")))
     /\ (forall batch, SqliteBackend.write_groups batch s'
                       = (s', inl (RuntimeError "Not connected"))))
  /\ (exists m',
     MongoBackend.close m = (m', inr tt)
     /\ MongoBackend.close m' = (m', inr tt)
     /\ MongoBackend.client m' = None
     /\ (MongoBackend.client m <> None ->
         MongoBackend.db m' = None
         /\ MongoBackend.read_accounts m' = inl (RuntimeError "Not connected")
         /\ MongoBackend.read_groups m' = inl (RuntimeError "Not connected"))).
Proof.
  split.
  - unfold SqliteBackend.close.
    destruct s as [p [c|]]; simpl; eexists; (split; [reflexivity|]);
      by repeat split.
  - unfold MongoBackend.close.
    destruct m as [u n [[]|] d]; simpl; eexists; (split; [reflexivity|]);
      by repeat split.
Qed.

(** X4. [ensure_schema] on a connected SQLite backend returns normally
    whatever tables exist; afterwards both tables exist, the rows of the
    tables that existed are the ones they had ([CREATE TABLE IF NOT
    EXISTS]), nothing is left uncommitted, and a second call changes
    nothing. *)
Theorem sqlite_ensure_schema (s : SqliteBackend.t) :
  SqliteBackend.conn s <> None ->
  exists s',
    SqliteBackend.ensure_schema s = (s', inr tt)
    /\ sqlite_ready s' = true
    /\ sqlite_accounts s' = sqlite_accounts s
    /\ sqlite_groups s' = sqlite_groups s
    /\ sqlite_durable s' = sqlite_view s'
    /\ SqliteBackend.ensure_schema s' = (s', inr tt).
Proof.
  unfold SqliteBackend.ensure_schema, SqliteBackend.with_conn, sqlite_ready,
    sqlite_accounts, sqlite_groups, sqlite_durable, sqlite_view.
  destruct s as [p [[[ta tg] cm]|]]; simpl; [intros _|done].
  eexists. split; [reflexivity|]. simpl.
  by destruct ta, tg.
Qed.

(** A connection to a new file, where no table exists yet. *)
Lemma sqlite_ensure_schema_witness :
  exists s',
    SqliteBackend.ensure_schema
      (SqliteBackend.mk "/data/new.db"
         (Some (SqliteBackend.mk_connection
                  (SqliteBackend.mk_database None None)
                  (SqliteBackend.mk_database None None))))
    = (s', inr tt)
    /\ sqlite_ready s' = true
    /\ sqlite_accounts s' = []
    /\ sqlite_groups s' = []
    /\ sqlite_durable s' = sqlite_view s'
    /\ SqliteBackend.ensure_schema s' = (s', inr tt).
Proof.
  apply (sqlite_ensure_schema
           (SqliteBackend.mk "/data/new.db"
              (Some (SqliteBackend.mk_connection
                       (SqliteBackend.mk_database None None)
                       (SqliteBackend.mk_database None None))))).
  discriminate.
Defined.

(** A MongoDB backend that was connected, and a SQLite one. *)
Lemma close_idempotent_witness :
  (exists s',
     SqliteBackend.close Scenario.sqlite_source = (s', inr tt)
     /\ SqliteBackend.close s' = (s', inr tt)
     /\ SqliteBackend.read_accounts s' = inl (RuntimeError "Not connected"))
  /\ (exists m',
     MongoBackend.close Scenario.mongo_empty = (m', inr tt)
     /\ MongoBackend.db m' = None
     /\ MongoBackend.read_accounts m' = inl (RuntimeError "Not connected")).
Proof.
  destruct (close_idempotent (H := Json.codec) Scenario.sqlite_source
              Scenario.mongo_empty)
    as [(s' & Hs & Hs2 & _ & Hr & _) (m' & Hm & _ & _ & Hafter)].
  split.
  - by exists s'.
  - exists m'. split; [done|]. destruct Hafter as (Hd & Hr' & _).
    + injection Hm as <-. discriminate.
    + done.
Defined.

(** ** What an upsert leaves alone *)

Lemma replace_into_ids {A} (key : A -> string) (r : A) (rows : list A)
    (j : string) :
  j ∈ map key (replace_into key r rows) <-> j = key r \/ j ∈ map key rows.
Proof.
  unfold replace_into. rewrite map_app, elem_of_app. simpl.
  rewrite list_elem_of_singleton.
  assert (Hin : forall l : list A, j ∈ map key l <-> exists x, x ∈ l /\ key x = j).
  { intros l. rewrite list_elem_of_In, in_map_iff.
    split; intros (x & H1 & H2); exists x.
    - by rewrite list_elem_of_In.
    - by rewrite <- list_elem_of_In. }
  rewrite !Hin. split.
  - intros [(x & Hx & <-) | ->]; [|by left].
    apply list_elem_of_filter in Hx as [_ Hx]. right. by exists x.
  - intros [-> | (x & Hx & <-)]; [by right|].
    destruct (decide (key x = key r)) as [Heq|Hne]; [by right|].
    left. exists x. split; [|done]. by apply list_elem_of_filter.
Qed.

Lemma replace_into_NoDup {A} (key : A -> string) (r : A) (rows : list A) :
  NoDup (map key rows) -> NoDup (map key (replace_into key r rows)).
Proof.
  intros Hnd. unfold replace_into. rewrite map_app. simpl.
  apply NoDup_app. split; [|split].
  - induction rows as [|x rows IH]; simpl; [constructor|].
    apply NoDup_cons in Hnd as [Hx Hnd]. rewrite filter_cons.
    destruct (decide (key x <> key r)); [|by apply IH].
    simpl. apply NoDup_cons. split; [|by apply IH].
    intros Hin. apply Hx. rewrite list_elem_of_In, in_map_iff in Hin.
    destruct Hin as (y & Hy & Hin). rewrite <- list_elem_of_In in Hin.
    apply list_elem_of_filter in Hin as [_ Hin].
    rewrite <- Hy. by apply elem_of_map.
  - intros j Hj Hr. apply list_elem_of_singleton in Hr as ->.
    rewrite list_elem_of_In, in_map_iff in Hj.
    destruct Hj as (y & Hy & Hin). rewrite <- list_elem_of_In in Hin.
    by apply list_elem_of_filter in Hin as [Hne _].
  - apply NoDup_singleton.
Qed.

Section upserts_frame.
Context {R : Type} (key : R -> string) (ups : R -> list R -> list R)
  (Inv : list R -> Prop).
Hypothesis ups_with_id : forall r rows i,
  Inv rows ->
  with_id key i (ups r rows) = if decide (key r = i) then [r] else with_id key i rows.
Hypothesis ups_inv : forall r rows, Inv rows -> Inv (ups r rows).
Hypothesis ups_ids : forall r rows j,
  j ∈ map key (ups r rows) <-> j = key r \/ j ∈ map key rows.

Lemma upserts_other (rs rows : list R) (j : string) :
  Inv rows -> j ∉ map key rs ->
  with_id key j (foldl (fun t r => ups r t) rows rs) = with_id key j rows.
Proof.
  revert rows. induction rs as [|r rs IH]; simpl; intros rows Hinv Hj; [done|].
  apply not_elem_of_cons in Hj as [Hr Hj].
  rewrite IH by auto. rewrite ups_with_id by done.
  by rewrite decide_False.
Qed.

Lemma upserts_ids (rs rows : list R) (j : string) :
  j ∈ map key (foldl (fun t r => ups r t) rows rs)
  <-> j ∈ map key rs \/ j ∈ map key rows.
Proof.
  revert rows. induction rs as [|r rs IH]; simpl; intros rows.
  - split; [auto|]. by intros [?%elem_of_nil|?].
  - rewrite IH, ups_ids, elem_of_cons. tauto.
Qed.
End upserts_frame.

Lemma Forall2_ids {A R} (keyA : A -> string) (keyR : R -> string)
    (Q : A -> R -> Prop) (batch : list A) (rs : list R) :
  (forall a r, Q a r -> keyR r = keyA a) ->
  Forall2 Q batch rs -> map keyR rs = map keyA batch.
Proof.
  intros Hkey. induction 1 as [|a r batch rs Har _ IH]; simpl; [done|].
  by rewrite IH, (Hkey _ _ Har).
Qed.

(** The state that a write of well-typed records leaves, in full. *)
Lemma sqlite_write_accounts_run `{JsonCodec} (s : SqliteBackend.t)
    (batch : list Account.t) :
  sqlite_ready s = true -> forallb account_typed batch = true ->
  exists s' rs,
    SqliteBackend.write_accounts batch s = (s', inr tt)
    /\ Forall2 (fun a r => SqliteBackend.row_of_account a = inr r
                           /\ row_holds_account r a) batch rs
    /\ sqlite_accounts s'
       = foldl (fun t r => replace_into AccountRow.id r t) (sqlite_accounts s) rs
    /\ sqlite_groups s' = sqlite_groups s
    /\ sqlite_ready s' = true
    /\ sqlite_durable s' = sqlite_view s'.
Proof.
  unfold sqlite_ready, sqlite_accounts, sqlite_groups, sqlite_durable,
    sqlite_view, SqliteBackend.write_accounts, SqliteBackend.with_conn.
  destruct s as [p [c|]]; simpl; [|done].
  destruct (SqliteBackend.accounts (SqliteBackend.db c)) as [rows|] eqn:Hrows;
    [|done].
  destruct (SqliteBackend.groups (SqliteBackend.db c)) as [grows|] eqn:Hgrows;
    [|done].
  intros _ Hty.
  destruct (insert_accounts_run batch c rows Hrows Hty) as (rs & Hrs & Hrun).
  unfold bind. rewrite Hrun. simpl. rewrite Hgrows.
  exists (SqliteBackend.mk p
            (Some (SqliteBackend.mk_connection
                     (SqliteBackend.mk_database
                        (Some (foldl (fun t r => replace_into AccountRow.id r t)
                                     rows rs)) (Some grows))
                     (SqliteBackend.mk_database
                        (Some (foldl (fun t r => replace_into AccountRow.id r t)
                                     rows rs)) (Some grows))))), rs.
  by repeat split.
Qed.

Lemma sqlite_write_groups_run `{JsonCodec} (s : SqliteBackend.t)
    (batch : list Group.t) :
  sqlite_ready s = true -> forallb group_typed batch = true ->
  exists s' rs,
    SqliteBackend.write_groups batch s = (s', inr tt)
    /\ Forall2 (fun g r => SqliteBackend.row_of_group g = inr r
                           /\ row_holds_group r g) batch rs
    /\ sqlite_groups s'
       = foldl (fun t r => replace_into GroupRow.id r t) (sqlite_groups s) rs
    /\ sqlite_accounts s' = sqlite_accounts s
    /\ sqlite_ready s' = true
    /\ sqlite_durable s' = sqlite_view s'.
Proof.
  unfold sqlite_ready, sqlite_accounts, sqlite_groups, sqlite_durable,
    sqlite_view, SqliteBackend.write_groups, SqliteBackend.with_conn.
  destruct s as [p [c|]]; simpl; [|done].
  destruct (SqliteBackend.accounts (SqliteBackend.db c)) as [rows|] eqn:Hrows;
    [|done].
  destruct (SqliteBackend.groups (SqliteBackend.db c)) as [grows|] eqn:Hgrows;
    [|done].
  intros _ Hty.
  destruct (insert_groups_run batch c grows Hgrows Hty) as (rs & Hrs & Hrun).
  unfold bind. rewrite Hrun. simpl. rewrite Hrows.
  exists (SqliteBackend.mk p
            (Some (SqliteBackend.mk_connection
                     (SqliteBackend.mk_database (Some rows)
                        (Some (foldl (fun t r => replace_into GroupRow.id r t)
                                     grows rs)))
                     (SqliteBackend.mk_database (Some rows)
                        (Some (foldl (fun t r => replace_into GroupRow.id r t)
                                     grows rs)))))), rs.
  by repeat split.
Qed.

Lemma mongo_write_accounts_run (m : MongoBackend.t) (batch : list Account.t) :
  mongo_connected m = true ->
  exists m',
    MongoBackend.write_accounts batch m = (m', inr tt)
    /\ mongo_accounts m'
       = foldl (fun t x => MongoBackend.replace_one (MongoBackend._id x) x t)
               (mongo_accounts m) (map MongoBackend.doc_of_account batch)
    /\ mongo_groups m' = mongo_groups m
    /\ mongo_connected m' = true.
Proof.
  unfold mongo_connected, mongo_accounts, mongo_groups,
    MongoBackend.write_accounts, MongoBackend.with_db.
  destruct m as [u n cl [d|]]; simpl; [|done]. intros _.
  rewrite replace_accounts_run. by eexists.
Qed.

Lemma mongo_write_groups_run (m : MongoBackend.t) (batch : list Group.t) :
  mongo_connected m = true ->
  exists m',
    MongoBackend.write_groups batch m = (m', inr tt)
    /\ mongo_groups m'
       = foldl (fun t x => MongoBackend.replace_one (MongoBackend._id x) x t)
               (mongo_groups m) (map MongoBackend.doc_of_group batch)
    /\ mongo_accounts m' = mongo_accounts m
    /\ mongo_connected m' = true.
Proof.
  unfold mongo_connected, mongo_accounts, mongo_groups,
    MongoBackend.write_groups, MongoBackend.with_db.
  destruct m as [u n cl [d|]]; simpl; [|done]. intros _.
  rewrite replace_groups_run. by eexists.
Qed.





(** ** Writing, then reading *)

Lemma sqlite_read_accounts_ready `{JsonCodec} (s : SqliteBackend.t) :
  sqlite_ready s = true ->
  SqliteBackend.read_accounts s
  = inr (map SqliteBackend.account_of_row
             (order_by AccountRow.id (sqlite_accounts s))).
Proof.
  unfold sqlite_ready, sqlite_accounts, SqliteBackend.read_accounts.
  destruct (SqliteBackend.conn s) as [c|]; [|done].
  destruct (SqliteBackend.accounts _); [|done].
  by destruct (SqliteBackend.groups _).
Qed.

Lemma sqlite_read_groups_ready `{JsonCodec} (s : SqliteBackend.t) :
  sqlite_ready s = true ->
  SqliteBackend.read_groups s
  = inr (map SqliteBackend.group_of_row
             (order_by GroupRow.id (sqlite_groups s))).
Proof.
  unfold sqlite_ready, sqlite_groups, SqliteBackend.read_groups.
  destruct (SqliteBackend.conn s) as [c|]; [|done].
  destruct (SqliteBackend.accounts _); [|done].
  by destruct (SqliteBackend.groups _).
Qed.

Lemma mongo_read_accounts_connected (m : MongoBackend.t) :
  mongo_connected m = true ->
  MongoBackend.read_accounts m
  = inr (map MongoBackend.account_of_doc
             (order_by MongoBackend._id (mongo_accounts m))).
Proof.
  unfold mongo_connected, mongo_accounts, MongoBackend.read_accounts.
  by destruct (MongoBackend.db m).
Qed.

Lemma mongo_read_groups_connected (m : MongoBackend.t) :
  mongo_connected m = true ->
  MongoBackend.read_groups m
  = inr (map MongoBackend.group_of_doc
             (order_by MongoBackend._id (mongo_groups m))).
Proof.
  unfold mongo_connected, mongo_groups, MongoBackend.read_groups.
  by destruct (MongoBackend.db m).
Qed.

(** Reading picks, under an id that the store holds once, the image of the
    record stored there, and nothing else. *)
Lemma read_with_id {A B} (keyA : A -> string) (keyB : B -> string)
    (f : A -> B) (rows : list A) (r : A) :
  (forall x, keyB (f x) = keyA x) ->
  with_id keyA (keyA r) rows = [r] ->
  f r ∈ map f (order_by keyA rows)
  /\ forall y, y ∈ map f (order_by keyA rows) -> keyB y = keyA r -> y = f r.
Proof.
  intros Hkey Hwith.
  assert (Hr : r ∈ rows).
  { assert (Hin : r ∈ with_id keyA (keyA r) rows)
      by (rewrite Hwith; apply list_elem_of_here).
    by apply list_elem_of_filter in Hin as [_ Hin]. }
  split; [by apply elem_of_read|].
  intros y Hy Hky. rewrite list_elem_of_In, in_map_iff in Hy.
  destruct Hy as (x & <- & Hx). rewrite <- list_elem_of_In in Hx.
  rewrite order_by_perm in Hx. rewrite Hkey in Hky.
  assert (Hin : x ∈ with_id keyA (keyA r) rows)
    by by apply list_elem_of_filter.
  rewrite Hwith in Hin. apply list_elem_of_singleton in Hin. by subst.
Qed.

Lemma account_of_row_holds `{JsonCodec} (r : AccountRow.t) (a : Account.t) :
  row_holds_account r a ->
  (truthy (Account.cookies a) = true ->
   json_loads (json_dumps (Account.cookies a)) = Some (Account.cookies a)
   /\ json_dumps (Account.cookies a) <> "") ->
  SqliteBackend.account_of_row r = stored_cookies a.
Proof.
  destruct a as [i rn un pw sid rk ck], r as [ri rrn run rpw rsid rrk rck].
  unfold row_holds_account, stored_cookies, SqliteBackend.account_of_row.
  simpl. intros (-> & <- & <- & <- & <- & <- & ->) Hcodec.
  destruct (truthy ck) eqn:Hck; [|done].
  destruct (Hcodec eq_refl) as [Hload Hne].
  rewrite Hload. by destruct (String.eqb_spec (json_dumps ck) "").
Qed.

Lemma group_of_row_holds `{JsonCodec} (r : GroupRow.t) (g : Group.t) :
  row_holds_group r g ->
  json_loads (json_dumps (Group.account_ids g)) = Some (Group.account_ids g) ->
  json_dumps (Group.account_ids g) <> "" ->
  SqliteBackend.group_of_row r = g.
Proof.
  destruct g as [i nm ds ids rk], r as [ri rnm rds rids rrk].
  unfold row_holds_group, SqliteBackend.group_of_row.
  simpl. intros (-> & <- & <- & -> & <-) Hload Hne.
  rewrite Hload. by destruct (String.eqb_spec (json_dumps ids) "").
Qed.





Lemma mongo_groups_roundtrip_doc (g : Group.t) :
  MongoBackend.group_of_doc (MongoBackend.doc_of_group g) = g.
Proof.
  destruct g as [i nm ds ids rk].
  unfold MongoBackend.group_of_doc, MongoBackend.doc_of_group. simpl.
  repeat (rewrite lookup_insert_eq || rewrite lookup_insert_ne by done).
  done.
Qed.



(** ** Reads return every record once *)



(** ** The pipeline, in execute mode and when it fails *)

Lemma for_each_lift_fail {S A} (xs : list A) (f : A -> result unit) (s : S) :
  forallb (fun x => match f x with inr _ => true | inl _ => false end) xs
  = false ->
  exists x e, x ∈ xs /\ f x = inl e
              /\ for_each xs (fun x => lift (f x)) s = (s, inl e).
Proof.
  induction xs as [|x xs IH]; simpl; [done|].
  unfold bind, lift at 1. destruct (f x) as [e|[]] eqn:Hx; simpl.
  - intros _. exists x, e. split; [apply list_elem_of_here|done].
  - intros Hxs. destruct (IH Hxs) as (y & e & Hy & Hfy & Hrun).
    exists y, e. split; [by apply list_elem_of_further|done].
Qed.

Lemma summary_ok_logs (accounts : list Account.t) (groups : list Group.t) :
  summary_ok accounts groups
  = forallb (fun a => match log_account a with
                      | inr _ => true | inl _ => false end) accounts
    && forallb (fun g => match log_group g with
                         | inr _ => true | inl _ => false end) groups.
Proof.
  unfold summary_ok. f_equal.
  - induction accounts as [|a accounts IH]; [done|]. simpl. rewrite IH.
    f_equal. unfold log_account, sized.
    destruct (truthy (Account.cookies a)); [|done]. simpl.
    by destruct (py_len _).
  - induction groups as [|g groups IH]; [done|]. simpl. rewrite IH.
    f_equal. unfold log_group, sized. by destruct (py_len _).
Qed.

Lemma log_errors_are_type_errors :
  (forall a e, log_account a = inl e -> exists msg, e = TypeError msg)
  /\ (forall g e, log_group g = inl e -> exists msg, e = TypeError msg).
Proof.
  split.
  - intros a e. unfold log_account.
    destruct (truthy _); [|done].
    destruct (Account.cookies a); simpl; intros [= <-]; by eexists.
  - intros g e. unfold log_group.
    destruct (Group.account_ids g); simpl; intros [= <-]; by eexists.
Qed.

(** What [migrate] does once both reads have returned. *)
Lemma migrate_after_reads {S T} `{StorageBackend S} `{StorageBackend T}
    (source : S) (target : T) (dry_run skip_cookies : bool)
    (accounts : list Account.t) (groups : list Group.t) :
  read_accounts source = inr accounts ->
  read_groups source = inr groups ->
  let accounts' :=
    if skip_cookies then map (Account.set_cookies VNone) accounts
    else accounts in
  (summary_ok accounts' groups = true ->
   migrate source target dry_run skip_cookies
   = if dry_run then (target, inr tt)
     else (let* _ := ensure_schema in
           let* _ := write_accounts accounts' in
           write_groups groups) target)
  /\ (summary_ok accounts' groups = false ->
      exists msg, migrate source target dry_run skip_cookies
                  = (target, inl (TypeError msg))).
Proof.
  intros Ha Hg accounts'. rewrite summary_ok_logs.
  unfold migrate, bind. rewrite Ha, Hg. simpl. fold accounts'. split.
  - intros [Hla Hlg]%andb_true_iff.
    destruct (for_each_lift accounts' log_account target) as (r1 & -> & Hr1).
    rewrite (Hr1 Hla).
    destruct (for_each_lift groups log_group target) as (r2 & -> & Hr2).
    rewrite (Hr2 Hlg). by destruct dry_run.
  - intros Hbad.
    destruct (forallb _ accounts') eqn:Hla.
    + destruct (for_each_lift accounts' log_account target) as (r1 & -> & Hr1).
      rewrite (Hr1 Hla). simpl in Hbad.
      destruct (for_each_lift_fail groups log_group target Hbad)
        as (g & e & _ & Hge & ->).
      destruct (proj2 log_errors_are_type_errors g e Hge) as [msg ->].
      by exists msg.
    + destruct (for_each_lift_fail accounts' log_account target Hla)
        as (a & e & _ & Hae & ->).
      destruct (proj1 log_errors_are_type_errors a e Hae) as [msg ->].
      by exists msg.
Qed.

(** X11. Execute mode without options.  When both reads of the source
    return and the summary can be formatted, [migrate] gives the target
    three calls and no other, in this order: [ensure_schema], then
    [write_accounts] with the accounts exactly as read (their cookies
    included), then [write_groups] with the groups as read; it then
    returns normally. *)
Theorem migrate_execute_calls {S} `{StorageBackend S} (source : S)
    (log : Recorder.t) (accounts : list Account.t) (groups : list Group.t) :
  read_accounts source = inr accounts ->
  read_groups source = inr groups ->
  summary_ok accounts groups = true ->
  migrate source log false false
  = ((log ++ [Recorder.EnsureSchema; Recorder.WriteAccounts accounts;
              Recorder.WriteGroups groups])%list, inr tt).
Proof.
  intros Ha Hg Hok.
  destruct (migrate_after_reads source log false false accounts groups Ha Hg)
    as [Hrun _].
  rewrite (Hrun Hok). unfold bind. simpl. unfold Recorder.record.
  by rewrite <- !app_assoc.
Qed.

Lemma migrate_execute_calls_witness :
  migrate (Scenario.sqlite_with [Scenario.row_a1] [Scenario.row_g1])
          ([] : Recorder.t) false false
  = ([Recorder.EnsureSchema; Recorder.WriteAccounts [Scenario.a1];
      Recorder.WriteGroups [Scenario.g1]], inr tt).
Proof.
  apply (migrate_execute_calls
           (Scenario.sqlite_with [Scenario.row_a1] [Scenario.row_g1])
           [] [Scenario.a1] [Scenario.g1]).
  - vm_compute. reflexivity.
  - vm_compute. reflexivity.
  - reflexivity.
Defined.

(** X12. A failing read aborts the run before the target is touched.  If
    [read_accounts] on the source raises, [migrate] raises the same
    exception; if it returns and [read_groups] raises, [migrate] raises
    that one; in both cases, in either mode and with either option, the
    target is left as it was. *)
Theorem migrate_read_failure {S T} `{StorageBackend S} `{StorageBackend T}
    (source : S) (target : T) (dry_run skip_cookies : bool) (e : exn) :
  (read_accounts source = inl e ->
   migrate source target dry_run skip_cookies = (target, inl e))
  /\ (forall accounts,
        read_accounts source = inr accounts ->
        read_groups source = inl e ->
        migrate source target dry_run skip_cookies = (target, inl e)).
Proof.
  split.
  - intros Ha. unfold migrate, bind. by rewrite Ha.
  - intros accounts Ha Hg. unfold migrate, bind. by rewrite Ha, Hg.
Qed.

(** A source that was never connected. *)
Lemma migrate_read_failure_witness :
  migrate (SqliteBackend.init "/data/wardenly.db") Scenario.mongo_empty
          false false
  = (Scenario.mongo_empty, inl (RuntimeError "Not connected")).
Proof.
  apply (migrate_read_failure (SqliteBackend.init "/data/wardenly.db")
           Scenario.mongo_empty false false (RuntimeError "Not connected")).
  reflexivity.
Defined.

(** X13. The summary can abort the run.  When both reads return but some
    account to be migrated holds truthy cookies that have no length (a
    number or [True], as a stored JSON text can decode to), or some group
    holds [account_ids] that have no length ([None], a number, a boolean),
    [migrate] raises [TypeError] while formatting the summary, in either
    mode, and the target is left as it was. *)
Theorem migrate_summary_failure {S T} `{StorageBackend S} `{StorageBackend T}
    (source : S) (target : T) (dry_run skip_cookies : bool)
    (accounts : list Account.t) (groups : list Group.t) :
  read_accounts source = inr accounts ->
  read_groups source = inr groups ->
  summary_ok (if skip_cookies then map (Account.set_cookies VNone) accounts
              else accounts) groups = false ->
  exists msg,
    migrate source target dry_run skip_cookies = (target, inl (TypeError msg)).
Proof.
  intros Ha Hg Hbad.
  by destruct (migrate_after_reads source target dry_run skip_cookies
                 accounts groups Ha Hg) as [_ Hfail]; apply Hfail.
Qed.

(** A row whose [cookies] text is the JSON number 5. *)
Lemma migrate_summary_failure_witness :
  exists msg,
    migrate (Scenario.sqlite_with
               [AccountRow.mk "a5" "admin" "u" "p" 1 (Some 0%Z) (Some "5")] [])
            Scenario.mongo_empty false false
    = (Scenario.mongo_empty, inl (TypeError msg)).
Proof.
  apply (migrate_summary_failure
           (Scenario.sqlite_with
              [AccountRow.mk "a5" "admin" "u" "p" 1 (Some 0%Z) (Some "5")] [])
           Scenario.mongo_empty false false
           [Account.mk "a5" (VStr "admin") (VStr "u") (VStr "p") (VInt 1)
                       (VInt 0) (VInt 5)] []).
  - vm_compute. reflexivity.
  - vm_compute. reflexivity.
  - reflexivity.
Defined.

(** ** A write that fails part-way *)

Lemma for_each_app {S A} (xs ys : list A) (body : A -> M S unit) (s : S) :
  for_each (xs ++ ys) body s
  = (let* _ := for_each xs body in for_each ys body) s.
Proof.
  revert s. induction xs as [|x xs IH]; simpl; intros s; [done|].
  unfold bind. destruct (body x s) as [s' [e|[]]]; [done|].
  rewrite IH. done.
Qed.



(** ** Migration into each backend *)

Lemma rows_last_of {A R} (keyA : A -> string) (keyR : R -> string)
    (Q : A -> R -> Prop) (batch : list A) (rs rows : list R) (b : A) :
  (forall a r, Q a r -> keyR r = keyA a) ->
  Forall2 Q batch rs -> last_of keyA b batch ->
  exists r, Q b r
            /\ with_id keyR (keyA b)
                 (foldl (fun t r => replace_into keyR r t) rows rs) = [r].
Proof.
  intros Hkey HQ Hlast.
  destruct (last_of_Forall2 keyA keyR Q batch rs b Hkey HQ Hlast)
    as (r & Hr & Hlast').
  exists r. split; [done|]. rewrite <- (Hkey _ _ Hr).
  apply (upserts_last_of keyR _ (fun _ => True)); try done.
  intros. apply with_id_replace_into.
Qed.



Lemma replace_one_fresh (d : MongoBackend.doc) (docs : list MongoBackend.doc) :
  MongoBackend._id d ∉ map MongoBackend._id docs ->
  MongoBackend.replace_one (MongoBackend._id d) d docs = (docs ++ [d])%list.
Proof.
  induction docs as [|x docs IH]; simpl; [done|].
  intros [Hx Hd]%not_elem_of_cons.
  destruct (decide (MongoBackend._id x = MongoBackend._id d)); [congruence|].
  by rewrite IH.
Qed.

Lemma replace_all_fresh (ds : list MongoBackend.doc) :
  NoDup (map MongoBackend._id ds) ->
  foldl (fun t x => MongoBackend.replace_one (MongoBackend._id x) x t) [] ds
  = ds.
Proof.
  induction ds as [|d ds IH] using rev_ind; [done|].
  rewrite map_app. simpl. intros (Hnd & Hfresh & _)%NoDup_app.
  rewrite foldl_snoc, (IH Hnd). apply replace_one_fresh.
  intros Hin. apply (Hfresh _ Hin). apply list_elem_of_here.
Qed.

Lemma last_of_NoDup {A} (key : A -> string) (batch : list A) (b : A) :
  NoDup (map key batch) -> b ∈ batch -> last_of key b batch.
Proof.
  intros Hnd Hb. apply list_elem_of_split in Hb as (l & l3 & ->).
  exists l, l3. split; [done|].
  rewrite map_app in Hnd. apply NoDup_app in Hnd as (_ & _ & Hnd).
  simpl in Hnd. apply NoDup_cons in Hnd as [Hb _].
  apply Forall_forall. intros x Hx Heq. apply Hb. rewrite <- Heq.
  by apply elem_of_map.
Qed.



(** ** Writing a batch again *)

Lemma filter_keep {A} (P : A -> Prop) `{!forall x, Decision (P x)}
    (l : list A) :
  Forall P l -> filter P l = l.
Proof.
  induction 1 as [|x l Hx _ IH]; [done|].
  by rewrite filter_cons_True, IH.
Qed.

Lemma filter_drop {A} (P : A -> Prop) `{!forall x, Decision (P x)}
    (l : list A) :
  Forall (fun x => ~ P x) l -> filter P l = [].
Proof.
  induction 1 as [|x l Hx _ IH]; [done|].
  by rewrite filter_cons_False.
Qed.

(** After a batch without repeated ids the table is what it held under
    other ids, followed by the batch. *)
Lemma replace_all_closed {A} (key : A -> string) (rs rows : list A) :
  NoDup (map key rs) ->
  foldl (fun t r => replace_into key r t) rows rs
  = (filter (fun x => key x ∉ map key rs) rows ++ rs)%list.
Proof.
  induction rs as [|r rs IH] using rev_ind; intros Hnd.
  - simpl. rewrite app_nil_r. symmetry. apply filter_keep.
    apply Forall_forall. intros x _. apply not_elem_of_nil.
  - rewrite map_app in Hnd. simpl in Hnd.
    apply NoDup_app in Hnd as (Hnd & Hfresh & _).
    assert (Hr : key r ∉ map key rs).
    { intros Hin. apply (Hfresh _ Hin). apply list_elem_of_here. }
    rewrite foldl_snoc, (IH Hnd). unfold replace_into.
    rewrite filter_app, list_filter_filter, <- app_assoc. f_equal.
    + apply list_filter_iff. intros x. rewrite map_app, elem_of_app. simpl.
      rewrite list_elem_of_singleton. tauto.
    + f_equal. apply filter_keep. apply Forall_forall. intros x Hx Heq.
      apply Hr. rewrite <- Heq. by apply elem_of_map.
Qed.

Lemma replace_all_again {A} (key : A -> string) (rs rows : list A) :
  NoDup (map key rs) ->
  foldl (fun t r => replace_into key r t)
        (foldl (fun t r => replace_into key r t) rows rs) rs
  = foldl (fun t r => replace_into key r t) rows rs.
Proof.
  intros Hnd. rewrite !(replace_all_closed key rs) by done.
  rewrite filter_app, list_filter_filter.
  rewrite (filter_drop _ rs), app_nil_r.
  - f_equal. apply list_filter_iff. tauto.
  - apply Forall_forall. intros x Hx Hnot. apply Hnot. by apply elem_of_map.
Qed.

Lemma replace_one_same (d : MongoBackend.doc) (docs : list MongoBackend.doc) :
  NoDup (map MongoBackend._id docs) -> d ∈ docs ->
  MongoBackend.replace_one (MongoBackend._id d) d docs = docs.
Proof.
  induction docs as [|x docs IH]; simpl; intros Hnd Hd.
  - by apply elem_of_nil in Hd.
  - apply NoDup_cons in Hnd as [Hx Hnd].
    destruct (decide (MongoBackend._id x = MongoBackend._id d)) as [Heq|Hne].
    + apply elem_of_cons in Hd as [->|Hd]; [done|].
      exfalso. apply Hx. rewrite Heq. by apply elem_of_map.
    + apply elem_of_cons in Hd as [->|Hd]; [done|]. by rewrite IH.
Qed.

Lemma replace_all_same (ds docs : list MongoBackend.doc) :
  NoDup (map MongoBackend._id docs) -> Forall (fun d => d ∈ docs) ds ->
  foldl (fun t x => MongoBackend.replace_one (MongoBackend._id x) x t) docs ds
  = docs.
Proof.
  intros Hnd. induction 1 as [|d ds Hd _ IH]; simpl; [done|].
  by rewrite replace_one_same.
Qed.

Lemma replace_all_again_mongo (ds docs : list MongoBackend.doc) :
  NoDup (map MongoBackend._id docs) -> NoDup (map MongoBackend._id ds) ->
  foldl (fun t x => MongoBackend.replace_one (MongoBackend._id x) x t)
        (foldl (fun t x => MongoBackend.replace_one (MongoBackend._id x) x t)
               docs ds) ds
  = foldl (fun t x => MongoBackend.replace_one (MongoBackend._id x) x t)
          docs ds.
Proof.
  intros Hdocs Hds. apply replace_all_same.
  - apply (upserts_inv
             (fun x t => MongoBackend.replace_one (MongoBackend._id x) x t)
             (fun t => NoDup (map MongoBackend._id t))); [|done].
    intros. by apply replace_one_NoDup.
  - apply Forall_forall. intros d Hd.
    destruct (replace_all_last_of ds docs d Hdocs) as [Hw _];
      [by apply last_of_NoDup|].
    assert (Hin : d ∈ with_id MongoBackend._id (MongoBackend._id d)
                        (foldl (fun t x =>
                                  MongoBackend.replace_one (MongoBackend._id x) x t)
                               docs ds))
      by (rewrite Hw; apply list_elem_of_here).
    by apply list_elem_of_filter in Hin as [_ Hin].
Qed.

Lemma Forall2_functional {A R} (f : A -> result R) (Q : R -> A -> Prop)
    (batch : list A) (rs rs' : list R) :
  Forall2 (fun a r => f a = inr r /\ Q r a) batch rs ->
  Forall2 (fun a r => f a = inr r /\ Q r a) batch rs' ->
  rs = rs'.
Proof.
  intros H1. revert rs'. induction H1 as [|a r batch rs [Hr _] _ IH];
    intros rs' H2.
  - by apply Forall2_nil_inv_l in H2.
  - apply Forall2_cons_inv_l in H2 as (r' & rs'' & [Hr' _] & H2 & ->).
    rewrite Hr in Hr'. injection Hr' as <-. f_equal. by apply IH.
Qed.



(** X18. [create_backend] knows two kinds only: for every [storage_type]
    other than "sqlite" and "mongodb" it raises [ValueError] with a
    message that names the type, whatever the other arguments are. *)
Theorem create_backend_unknown_kind (storage_type : string)
    (path uri database : option string) :
  storage_type <> "sqlite" -> storage_type <> "mongodb" ->
  create_backend storage_type path uri database
  = inl (ValueError ("Unknown storage type: " ++ storage_type)).
Proof.
  intros Hs Hm. unfold create_backend.
  destruct (String.eqb_spec storage_type "sqlite"); [done|].
  by destruct (String.eqb_spec storage_type "mongodb").
Qed.

Lemma create_backend_unknown_kind_witness :
  create_backend "SQLite" (Some "/data/wardenly.db") None None
  = inl (ValueError "Unknown storage type: SQLite").
Proof.
  apply (create_backend_unknown_kind "SQLite" (Some "/data/wardenly.db")
           None None); discriminate.
Defined.

(** ** What the reads make of stored fields *)




